(** * Task-progress synchronisation of the research store

    A shallow embedding of [frontend/src/stores/research.ts] (the Pinia
    store [useResearchStore]) together with the part of the browser it
    talks to: WebSocket objects, interval and timeout timers, status
    requests in flight and the console.

    The store's functions and the callbacks it installs are written in a
    small state-and-exception monad [Js], statement by statement as in the
    source.  Everything that reaches the store from outside (socket
    events, timer fires, settled requests, calls of the presentation
    layer) is an [Event]; [dispatch] is the event loop that hands an
    event to the callback registered for it. *)

From stdpp Require Import base option strings gmap pretty.
From Stdlib Require Import ZArith List Sorted Lia.
Import ListNotations.

Local Open Scope string_scope.
Local Open Scope Z_scope.

(** ** JavaScript values

    What [JSON.parse] and an HTTP response body can hold.  Numbers are
    the integers (progress is an integral percentage, estimated time a
    number of seconds); objects are association lists read left to
    right. *)

#[local] Set Warnings "-register-all".

Inductive JsValue : Type :=
| JsUndefined
| JsNull
| JsBool (b : bool)
| JsNum (n : Z)
| JsStr (s : string)
| JsArr (items : list JsValue)
| JsObj (fields : list (string * JsValue)).

(** [ToBoolean]: what [if (v)] and [v || d] test. *)
Definition truthy (v : JsValue) : bool :=
  match v with
  | JsUndefined | JsNull => false
  | JsBool b => b
  | JsNum n => negb (n =? 0)
  | JsStr s => negb (String.eqb s "")
  | JsArr _ | JsObj _ => true
  end.

(** [v || d] *)
Definition js_or (v d : JsValue) : JsValue := if truthy v then v else d.

(** [v === 'lit'] for a string literal. *)
Definition is_str (v : JsValue) (lit : string) : bool :=
  match v with
  | JsStr s => String.eqb s lit
  | _ => false
  end.

Fixpoint assoc (k : string) (fields : list (string * JsValue)) : JsValue :=
  match fields with
  | [] => JsUndefined
  | (k', v) :: rest => if String.eqb k k' then v else assoc k rest
  end.

Inductive JsError : Type :=
| SyntaxError (what : string)
| TypeError (what : string)
| NetworkError (what : string).

(** [err.message] *)
Definition message (e : JsError) : string :=
  match e with
  | SyntaxError m | TypeError m | NetworkError m => m
  end.

(** [v.k] for the property names the store reads ([type], [status],
    [progress], [currentAgent], [currentTask], [estimatedTime]): a
    [TypeError] on [null] and [undefined], the field of an object, and
    [undefined] on every other value, which has no such property. *)
Definition property (v : JsValue) (k : string) : JsError + JsValue :=
  match v with
  | JsUndefined | JsNull => inl (TypeError k)
  | JsObj fields => inr (assoc k fields)
  | JsBool _ | JsNum _ | JsStr _ | JsArr _ => inr JsUndefined
  end.

(** ** The data model ([types/index.ts]) *)

Module ResearchProgress.
Record t : Type := mk {
  status : JsValue;
  progress : JsValue;
  currentAgent : JsValue;
  currentTask : JsValue;
  estimatedTime : JsValue;
}.
End ResearchProgress.

(** The fields a status frame may overwrite hold whatever the frame
    carried, hence [JsValue]; the others have their declared types.  The
    report is opaque here. *)
Module ResearchTask.
Record t : Type := mk {
  id : string;
  company : string;
  status : JsValue;
  depth : string;
  focus_areas : list string;
  progress : JsValue;
  current_agent : JsValue;
  current_task : JsValue;
  estimated_time : JsValue;
  created_at : string;
  started_at : option string;
  completed_at : option string;
  report_data : option JsValue;
  error_message : option string;
}.

Definition with_status (v : JsValue) (k : t) : t :=
  mk (id k) (company k) v (depth k) (focus_areas k) (progress k)
     (current_agent k) (current_task k) (estimated_time k) (created_at k)
     (started_at k) (completed_at k) (report_data k) (error_message k).
Definition with_progress (v : JsValue) (k : t) : t :=
  mk (id k) (company k) (status k) (depth k) (focus_areas k) v
     (current_agent k) (current_task k) (estimated_time k) (created_at k)
     (started_at k) (completed_at k) (report_data k) (error_message k).
Definition with_current_agent (v : JsValue) (k : t) : t :=
  mk (id k) (company k) (status k) (depth k) (focus_areas k) (progress k)
     v (current_task k) (estimated_time k) (created_at k)
     (started_at k) (completed_at k) (report_data k) (error_message k).
Definition with_current_task (v : JsValue) (k : t) : t :=
  mk (id k) (company k) (status k) (depth k) (focus_areas k) (progress k)
     (current_agent k) v (estimated_time k) (created_at k)
     (started_at k) (completed_at k) (report_data k) (error_message k).
End ResearchTask.

(** ** The store's variables

    The refs and [let] variables of the closure that the synchronisation
    code and [fetchTaskStatus] read or write.  [historyTasks], [reports]
    and [isLoading] belong to the other request helpers. *)

Definition handle := positive.

Record Store : Type := mkStore {
  currentTask : option ResearchTask.t;
  progress : ResearchProgress.t;
  wsConnection : option handle;
  pollingTimer : option handle;
  wsRetryCount : nat;
  error : option string;
}.

Definition MAX_WS_RETRIES : nat := 3.

(** ** The browser *)

Inductive ReadyState : Type := CONNECTING | OPEN | CLOSING | CLOSED.

Record WebSocket : Type := mkWebSocket {
  ws_taskId : string;
  readyState : ReadyState;
}.

(** What the store does to the outside world, newest first. *)
Inductive Effect : Type :=
| console_log (msg : string) (arg : option JsValue)
| console_error (msg : string) (err : option JsError)
| new_WebSocket (ws : handle) (taskId : string)
| WebSocket_close (ws : handle)
| set_interval (timer : handle) (ms : Z)
| clear_interval (timer : handle)
| set_timeout (timer : handle) (ms : Z)
| get_status (request : handle) (taskId : string)
| uncaught (err : JsError).

(** Who awaits a status request: a polling callback or [fetchTaskStatus]. *)
Inductive Awaiting : Type := by_polling | by_fetchTaskStatus.

Record Browser : Type := mkBrowser {
  sockets : gmap handle WebSocket;
  (* running [setInterval] timers, each with the task id its callback captured *)
  intervals : gmap handle string;
  (* [setTimeout] timers that have not fired yet *)
  timeouts : gset handle;
  (* [getTaskStatus] requests that have not settled yet *)
  requests : gmap handle Awaiting;
  effects : list Effect;
  next_handle : handle;
}.

Record World : Type := mkWorld {
  store : Store;
  browser : Browser;
}.

(** The canonical snapshot: the tracked task and its progress record. *)
Definition snapshot (w : World) : option ResearchTask.t * ResearchProgress.t :=
  (currentTask (store w), progress (store w)).

(** ** The monad *)

Inductive Outcome (A : Type) : Type :=
| Returned (a : A)
| Thrown (e : JsError).
Arguments Returned {A} a.
Arguments Thrown {A} e.

Definition Js (A : Type) : Type := World -> Outcome A * World.

Definition ret {A} (a : A) : Js A := fun w => (Returned a, w).

Definition bind {A B} (m : Js A) (k : A -> Js B) : Js B :=
  fun w =>
    match m w with
    | (Returned a, w') => k a w'
    | (Thrown e, w') => (Thrown e, w')
    end.

Definition throw {A} (e : JsError) : Js A := fun w => (Thrown e, w).

(** [try { body } catch (e) { handler }]: the handler starts from the
    state the body left behind. *)
Definition try_catch {A} (body : Js A) (handler : JsError -> Js A) : Js A :=
  fun w =>
    match body w with
    | (Returned a, w') => (Returned a, w')
    | (Thrown e, w') => handler e w'
    end.

Notation "x <- m ;; k" := (bind m (fun x => k))
  (at level 100, m at next level, k at level 200, right associativity).
Notation "m ;; k" := (bind m (fun _ => k))
  (at level 100, k at level 200, right associativity).

Definition when (b : bool) (m : Js unit) : Js unit := if b then m else ret tt.

Definition read {A} (f : Store -> A) : Js A := fun w => (Returned (f (store w)), w).

Definition update_store (f : Store -> Store) : Js unit :=
  fun w => (Returned tt, mkWorld (f (store w)) (browser w)).

Definition update_browser (f : Browser -> Browser) : Js unit :=
  fun w => (Returned tt, mkWorld (store w) (f (browser w))).

Definition lift {A} (r : JsError + A) : Js A :=
  match r with
  | inl e => throw e
  | inr a => ret a
  end.

(** Assignments to the store's variables. *)
Definition set_currentTask (v : option ResearchTask.t) : Js unit :=
  update_store (fun s =>
    mkStore v (progress s) (wsConnection s) (pollingTimer s) (wsRetryCount s) (error s)).
Definition set_progress (v : ResearchProgress.t) : Js unit :=
  update_store (fun s =>
    mkStore (currentTask s) v (wsConnection s) (pollingTimer s) (wsRetryCount s) (error s)).
Definition set_wsConnection (v : option handle) : Js unit :=
  update_store (fun s =>
    mkStore (currentTask s) (progress s) v (pollingTimer s) (wsRetryCount s) (error s)).
Definition set_pollingTimer (v : option handle) : Js unit :=
  update_store (fun s =>
    mkStore (currentTask s) (progress s) (wsConnection s) v (wsRetryCount s) (error s)).
Definition set_wsRetryCount (v : nat) : Js unit :=
  update_store (fun s =>
    mkStore (currentTask s) (progress s) (wsConnection s) (pollingTimer s) v (error s)).
(** [currentTask.value.field = v]: a [TypeError] when no task is held. *)
Definition assign_task (f : ResearchTask.t -> ResearchTask.t) : Js unit :=
  task <- read currentTask ;;
  match task with
  | Some k => set_currentTask (Some (f k))
  | None => throw (TypeError "currentTask.value")
  end.

Definition set_error (v : option string) : Js unit :=
  update_store (fun s =>
    mkStore (currentTask s) (progress s) (wsConnection s) (pollingTimer s)
            (wsRetryCount s) v).

(** ** Browser primitives *)

Definition emit (e : Effect) : Js unit :=
  update_browser (fun b =>
    mkBrowser (sockets b) (intervals b) (timeouts b) (requests b)
              (e :: effects b) (next_handle b)).

(** A handle no socket, timer or request has had before. *)
Definition fresh : Js handle :=
  fun w =>
    let b := browser w in
    (Returned (next_handle b),
     mkWorld (store w)
       (mkBrowser (sockets b) (intervals b) (timeouts b) (requests b)
                  (effects b) (Pos.succ (next_handle b)))).

Definition update_sockets (f : gmap handle WebSocket -> gmap handle WebSocket) : Js unit :=
  update_browser (fun b =>
    mkBrowser (f (sockets b)) (intervals b) (timeouts b) (requests b)
              (effects b) (next_handle b)).
Definition update_intervals (f : gmap handle string -> gmap handle string) : Js unit :=
  update_browser (fun b =>
    mkBrowser (sockets b) (f (intervals b)) (timeouts b) (requests b)
              (effects b) (next_handle b)).
Definition update_timeouts (f : gset handle -> gset handle) : Js unit :=
  update_browser (fun b =>
    mkBrowser (sockets b) (intervals b) (f (timeouts b)) (requests b)
              (effects b) (next_handle b)).
Definition update_requests (f : gmap handle Awaiting -> gmap handle Awaiting) : Js unit :=
  update_browser (fun b =>
    mkBrowser (sockets b) (intervals b) (timeouts b) (f (requests b))
              (effects b) (next_handle b)).

(** A socket that [close()] has not been called on and that has not
    closed by itself. *)
Definition live (s : WebSocket) : bool :=
  match readyState s with
  | CONNECTING | OPEN => true
  | CLOSING | CLOSED => false
  end.

Definition with_readyState (r : ReadyState) (s : WebSocket) : WebSocket :=
  mkWebSocket (ws_taskId s) r.

(** [ws.close()]: starts the closing handshake of a live socket and does
    nothing on one that is closing or closed; it never throws.  The
    [close] event comes later, as an event of its own. *)
Definition close (ws : handle) : Js unit :=
  emit (WebSocket_close ws) ;;
  update_sockets (alter (fun s => if live s then with_readyState CLOSING s else s) ws).

Definition clearInterval (timer : handle) : Js unit :=
  emit (clear_interval timer) ;;
  update_intervals (delete timer).

(** [setInterval(callback, ms)] for the polling callback of [taskId]. *)
Definition setInterval (taskId : string) (ms : Z) : Js handle :=
  timer <- fresh ;;
  update_intervals (insert timer taskId) ;;
  emit (set_interval timer ms) ;;
  ret timer.

(** [setTimeout(callback, ms)] for the reconnect callback. *)
Definition setTimeout (ms : Z) : Js handle :=
  timer <- fresh ;;
  update_timeouts (fun ts => {[timer]} ∪ ts) ;;
  emit (set_timeout timer ms) ;;
  ret timer.

(** The request of [researchApi.getTaskStatus(taskId)] leaves; the
    awaiting function is suspended until it settles. *)
Definition getTaskStatus (taskId : string) (who : Awaiting) : Js handle :=
  request <- fresh ;;
  update_requests (insert request who) ;;
  emit (get_status request taskId) ;;
  ret request.

Definition log (msg : string) (arg : option JsValue) : Js unit :=
  emit (console_log msg arg).
Definition log_error (msg : string) (err : option JsError) : Js unit :=
  emit (console_error msg err).

(** The payload of a message event, seen through [JSON.parse]: text that
    is not JSON, or the value the text denotes. *)
Inductive MessageData : Type :=
| Unparseable (text : string)
| Json (value : JsValue).

Definition JSON_parse (d : MessageData) : Js JsValue :=
  match d with
  | Unparseable text => throw (SyntaxError text)
  | Json value => ret value
  end.

Section Sync.

(** The task ids whose stream URL the [WebSocket] constructor refuses
    with a [SyntaxError]. *)
Variable url_refused : string -> bool.

(** [researchApi.createProgressWebSocket(taskId)], that is
    [new WebSocket(url)]. *)
Definition createProgressWebSocket (taskId : string) : Js handle :=
  if url_refused taskId then throw (SyntaxError taskId)
  else
    ws <- fresh ;;
    update_sockets (insert ws (mkWebSocket taskId CONNECTING)) ;;
    emit (new_WebSocket ws taskId) ;;
    ret ws.

(** ** The store *)

(** [task?.status === 'running' || task?.status === 'pending'] *)
Definition researching (task : option ResearchTask.t) : bool :=
  match task with
  | Some k =>
      is_str (ResearchTask.status k) "running"
      || is_str (ResearchTask.status k) "pending"
  | None => false
  end.

Definition isResearching (s : Store) : bool := researching (currentTask s).

Definition stopPolling : Js unit :=
  timer <- read pollingTimer ;;
  match timer with
  | Some t =>
      clearInterval t ;;
      set_pollingTimer None
  | None => ret tt
  end.

Definition stopStatusSync : Js unit :=
  ws <- read wsConnection ;;
  match ws with
  | Some c =>
      close c ;;
      set_wsConnection None
  | None => ret tt
  end ;;
  stopPolling.

Definition updateFromTask (task : ResearchTask.t) : Js unit :=
  set_currentTask (Some task) ;;
  set_progress
    (ResearchProgress.mk
       (ResearchTask.status task)
       (ResearchTask.progress task)
       (js_or (ResearchTask.current_agent task) (JsStr ""))
       (js_or (ResearchTask.current_task task) (JsStr ""))
       (js_or (ResearchTask.estimated_time task) (JsNum 0))).

Definition terminal (status : JsValue) : bool :=
  is_str status "completed" || is_str status "failed".

(** The polling callback up to its [await]. *)
Definition polling_tick (taskId : string) : Js unit :=
  _ <- getTaskStatus taskId by_polling ;;
  ret tt.

(** The polling callback from its [await] on, once the request has
    settled with a task or an error. *)
Definition polling_resume (settled : JsError + ResearchTask.t) : Js unit :=
  try_catch
    (task <- lift settled ;;
     updateFromTask task ;;
     when (terminal (ResearchTask.status task)) stopStatusSync)
    (fun e => log_error "轮询状态失败:" (Some e)).

Definition startPolling (taskId : string) : Js unit :=
  stopPolling ;;
  timer <- setInterval taskId 2000 ;;
  set_pollingTimer (Some timer).

(** [connectWebSocket] creates the socket and installs the four
    callbacks below on it. *)
Definition connectWebSocket (taskId : string) : Js unit :=
  old <- read wsConnection ;;
  match old with
  | Some c => close c
  | None => ret tt
  end ;;
  try_catch
    (ws <- createProgressWebSocket taskId ;;
     set_wsConnection (Some ws))
    (fun e => log_error "[WS] 创建连接失败:" (Some e)).

Definition ws_onopen : Js unit :=
  log "[WS] 已连接" None ;;
  set_wsRetryCount 0.

Definition ws_onmessage (event_data : MessageData) : Js unit :=
  try_catch
    (data <- JSON_parse event_data ;;
     type <- lift (property data "type") ;;
     if is_str type "heartbeat" then ret tt
     else
       log "[WS] 收到消息:" (Some data) ;;
       status <- lift (property data "status") ;;
       progress <- lift (property data "progress") ;;
       currentAgent <- lift (property data "currentAgent") ;;
       currentTask' <- lift (property data "currentTask") ;;
       estimatedTime <- lift (property data "estimatedTime") ;;
       set_progress
         (ResearchProgress.mk status progress
            (js_or currentAgent (JsStr ""))
            (js_or currentTask' (JsStr ""))
            (js_or estimatedTime (JsNum 0))) ;;
       task <- read currentTask ;;
       match task with
       | Some _ =>
           status <- lift (property data "status") ;;
           assign_task (ResearchTask.with_status status) ;;
           progress <- lift (property data "progress") ;;
           assign_task (ResearchTask.with_progress progress) ;;
           currentAgent <- lift (property data "currentAgent") ;;
           assign_task (ResearchTask.with_current_agent currentAgent) ;;
           currentTask' <- lift (property data "currentTask") ;;
           assign_task (ResearchTask.with_current_task currentTask')
       | None => ret tt
       end ;;
       status <- lift (property data "status") ;;
       when (terminal status) stopStatusSync)
    (fun e => log_error "[WS] 解析消息失败:" (Some e)).

Definition ws_onerror : Js unit :=
  log_error "[WS] 错误:" None.

Definition retry_message (count : nat) : string :=
  "[WS] 尝试重连 (" +:+ pretty count +:+ "/" +:+ pretty MAX_WS_RETRIES +:+ ")...".

Definition ws_onclose : Js unit :=
  log "[WS] 已关闭" None ;;
  set_wsConnection None ;;
  retries <- read wsRetryCount ;;
  active <- read isResearching ;;
  when ((retries <? MAX_WS_RETRIES)%nat && active)
    (set_wsRetryCount (S retries) ;;
     log (retry_message (S retries)) None ;;
     _ <- setTimeout 2000 ;;
     ret tt).

(** The callback [ws_onclose] hands to [setTimeout]. *)
Definition reconnect : Js unit :=
  task <- read currentTask ;;
  active <- read isResearching ;;
  match task with
  | Some k => when active (connectWebSocket (ResearchTask.id k))
  | None => ret tt
  end.

Definition startStatusSync (taskId : string) : Js unit :=
  set_wsRetryCount 0 ;;
  connectWebSocket taskId ;;
  startPolling taskId.

(** [fetchTaskStatus] up to its [await], and from it on. *)
Definition fetchTaskStatus (taskId : string) : Js unit :=
  _ <- getTaskStatus taskId by_fetchTaskStatus ;;
  ret tt.

Definition fetchTaskStatus_resume (settled : JsError + ResearchTask.t) : Js unit :=
  try_catch
    (task <- lift settled ;;
     updateFromTask task)
    (fun e =>
       set_error (Some (message e)) ;;
       throw e).

Definition resetProgress : Js unit :=
  set_progress
    (ResearchProgress.mk (JsStr "pending") (JsNum 0) (JsStr "") (JsStr "") (JsNum 0)).

Definition cleanup : Js unit :=
  stopStatusSync ;;
  set_currentTask None ;;
  resetProgress.

(** ** The event loop *)

(** What the presentation layer calls ([ReportDetail.vue]). *)
Inductive Call : Type :=
| call_fetchTaskStatus (taskId : string)
| call_startStatusSync (taskId : string)
| call_connectWebSocket (taskId : string)
| call_stopStatusSync
| call_resetProgress
| call_cleanup.

Inductive Event : Type :=
| ws_open (ws : handle)
| ws_message (ws : handle) (data : MessageData)
| ws_error (ws : handle)
| ws_closed (ws : handle)
| interval_fired (timer : handle)
| timeout_fired (timer : handle)
| settled (request : handle) (result : JsError + ResearchTask.t)
| called (c : Call).

(** Runs a callback to its end; an exception it lets escape is reported
    by the browser. *)
Definition run (callback : Js unit) (w : World) : World :=
  match callback w with
  | (Returned _, w') => w'
  | (Thrown e, w') => snd (emit (uncaught e) w')
  end.

Definition set_readyState (ws : handle) (r : ReadyState) : Js unit :=
  update_sockets (alter (with_readyState r) ws).

(** The browser's side of each event: [open] comes to a connecting
    socket, [message] only to an open one (frames for a socket that is
    closing or closed are dropped), [close] once to a socket that is not
    closed yet; a cleared interval does not fire, a timeout fires once,
    a request settles once. *)
Definition dispatch (w : World) (ev : Event) : World :=
  match ev with
  | ws_open ws =>
      match readyState <$> sockets (browser w) !! ws with
      | Some CONNECTING => run (set_readyState ws OPEN ;; ws_onopen) w
      | _ => w
      end
  | ws_message ws data =>
      match readyState <$> sockets (browser w) !! ws with
      | Some OPEN => run (ws_onmessage data) w
      | _ => w
      end
  | ws_error ws =>
      match readyState <$> sockets (browser w) !! ws with
      | Some CLOSED | None => w
      | Some _ => run ws_onerror w
      end
  | ws_closed ws =>
      match readyState <$> sockets (browser w) !! ws with
      | Some CLOSED | None => w
      | Some _ => run (set_readyState ws CLOSED ;; ws_onclose) w
      end
  | interval_fired timer =>
      match intervals (browser w) !! timer with
      | Some taskId => run (polling_tick taskId) w
      | None => w
      end
  | timeout_fired timer =>
      if bool_decide (timer ∈ timeouts (browser w))
      then run (update_timeouts (fun ts => ts ∖ {[timer]}) ;; reconnect) w
      else w
  | settled request result =>
      match requests (browser w) !! request with
      | Some by_polling =>
          run (update_requests (delete request) ;; polling_resume result) w
      | Some by_fetchTaskStatus =>
          (* the caller, [onMounted] of the report page, catches what
             [fetchTaskStatus] throws again *)
          run (update_requests (delete request) ;;
               try_catch (fetchTaskStatus_resume result) (fun _ => ret tt)) w
      | None => w
      end
  | called (call_fetchTaskStatus taskId) => run (fetchTaskStatus taskId) w
  | called (call_startStatusSync taskId) => run (startStatusSync taskId) w
  | called (call_connectWebSocket taskId) => run (connectWebSocket taskId) w
  | called call_stopStatusSync => run stopStatusSync w
  | called call_resetProgress => run resetProgress w
  | called call_cleanup => run cleanup w
  end.

Definition dispatch_all (events : list Event) (w : World) : World :=
  fold_left dispatch events w.

End Sync.

(** The store as [defineStore] sets it up, in a browser that has done
    nothing yet. *)
Definition initial_store : Store :=
  mkStore None
    (ResearchProgress.mk (JsStr "pending") (JsNum 0) (JsStr "") (JsStr "") (JsNum 0))
    None None 0%nat None.

Definition initial_world : World :=
  mkWorld initial_store (mkBrowser ∅ ∅ ∅ ∅ [] 1%positive).

(** ** Status frames

    A status frame reaches the snapshot from the poll channel, through
    the polling callback and [updateFromTask], or from the push channel,
    through [ws_onmessage]. *)

Inductive Frame : Type :=
| poll_frame (task : ResearchTask.t)
| push_frame (data : JsValue).

Definition apply_frame (f : Frame) : Js unit :=
  match f with
  | poll_frame task => polling_resume (inr task)
  | push_frame data => ws_onmessage (Json data)
  end.

Definition field (data : JsValue) (k : string) : JsValue :=
  match property data k with
  | inr v => v
  | inl _ => JsUndefined
  end.

(** A push message is a status frame when its fields can be read and
    its [type] is not [heartbeat]; a poll response always is. *)
Definition status_frame (f : Frame) : bool :=
  match f with
  | poll_frame _ => true
  | push_frame data =>
      match property data "type" with
      | inr type => negb (is_str type "heartbeat")
      | inl _ => false
      end
  end.

Definition frame_status (f : Frame) : JsValue :=
  match f with
  | poll_frame task => ResearchTask.status task
  | push_frame data => field data "status"
  end.

Definition frame_progress (f : Frame) : JsValue :=
  match f with
  | poll_frame task => ResearchTask.progress task
  | push_frame data => field data "progress"
  end.

(** The progress record a status frame carries, with the defaults the
    store fills in for empty labels and an unknown time. *)
Definition frame_record (f : Frame) : ResearchProgress.t :=
  match f with
  | poll_frame task =>
      ResearchProgress.mk
        (ResearchTask.status task)
        (ResearchTask.progress task)
        (js_or (ResearchTask.current_agent task) (JsStr ""))
        (js_or (ResearchTask.current_task task) (JsStr ""))
        (js_or (ResearchTask.estimated_time task) (JsNum 0))
  | push_frame data =>
      ResearchProgress.mk
        (field data "status")
        (field data "progress")
        (js_or (field data "currentAgent") (JsStr ""))
        (js_or (field data "currentTask") (JsStr ""))
        (js_or (field data "estimatedTime") (JsNum 0))
  end.

(** The worlds seen after each frame of a sequence. *)
Fixpoint observe (frames : list Frame) (w : World) : list World :=
  match frames with
  | [] => []
  | f :: rest =>
      let w' := run (apply_frame f) w in
      w' :: observe rest w'
  end.

Definition held_status (w : World) : JsValue :=
  ResearchProgress.status (progress (store w)).
Definition held_progress (w : World) : JsValue :=
  ResearchProgress.progress (progress (store w)).

Definition observed_progress (frames : list Frame) (w : World) : list JsValue :=
  map held_progress (observe frames w).

(** ** Channel ownership *)

Definition socket_live (w : World) (ws : handle) : bool :=
  match sockets (browser w) !! ws with
  | Some s => live s
  | None => false
  end.

Definition interval_running (w : World) (timer : handle) : bool :=
  bool_decide (is_Some (intervals (browser w) !! timer)).

(** Every live socket is the one in [wsConnection]: one push
    connection at most, and the store can reach it. *)
Definition push_owned (w : World) : Prop :=
  forall ws, socket_live w ws = true -> wsConnection (store w) = Some ws.

(** Every running interval is the one in [pollingTimer]. *)
Definition polling_owned (w : World) : Prop :=
  forall timer, interval_running w timer = true ->
                pollingTimer (store w) = Some timer.

Definition owned (w : World) : Prop := push_owned w /\ polling_owned w.

(** What is left of both channels once [stopStatusSync] has run. *)
Definition torn_down (before after : World) : Prop :=
  wsConnection (store after) = None /\
  pollingTimer (store after) = None /\
  (forall ws, wsConnection (store before) = Some ws ->
              socket_live after ws = false) /\
  (forall timer, pollingTimer (store before) = Some timer ->
                 interval_running after timer = false).

(** Both channels are down and nothing is being tracked. *)
Definition quiet (w : World) : Prop :=
  (forall ws, socket_live w ws = false) /\
  (forall timer, interval_running w timer = false) /\
  isResearching (store w) = false.

(** Events of the transports and timers, as opposed to settled requests
    and calls of the presentation layer. *)
Definition transport_event (ev : Event) : bool :=
  match ev with
  | ws_open _ | ws_message _ _ | ws_error _ | ws_closed _
  | interval_fired _ | timeout_fired _ => true
  | settled _ _ | called _ => false
  end.

(** The live sockets among the handles handed out so far. *)
Definition live_sockets (w : World) : list handle :=
  List.filter (socket_live w) (map_to_list (sockets (browser w))).*1.

(** ** Reconnection rounds *)

Section Rounds.

Variable url_refused : string -> bool.

(** The connection the store holds closes. *)
Definition connection_drops (w : World) : World :=
  match wsConnection (store w) with
  | Some ws => dispatch url_refused w (ws_closed ws)
  | None => w
  end.

(** The delay passes: every pending timeout fires. *)
Definition delay_elapses (w : World) : World :=
  dispatch_all url_refused (map timeout_fired (elements (timeouts (browser w)))) w.

(** A closure of the held connection followed by the reconnect delay. *)
Definition round (w : World) : World :=
  delay_elapses (connection_drops w).

End Rounds.

(** The [i]-th handle the browser hands out from [h] on. *)
Definition later (i : nat) (h : handle) : handle := Nat.iter i Pos.succ h.

(** ** Concrete tasks, frames and traces *)

Module Sample.

Definition no_url_refused : string -> bool := fun _ => false.

(** What [getTaskStatus] answers for task [t1]. *)
Definition task (status : string) (percent : Z) : ResearchTask.t :=
  ResearchTask.mk "t1" "贵州茅台" (JsStr status) "standard" [] (JsNum percent)
    (JsStr "collector") (JsStr "search") (JsNum 60) "2025-01-01T00:00:00"
    None None None None.

(** What the progress stream sends. *)
Definition message (status : string) (percent : Z) : JsValue :=
  JsObj [("type", JsStr "progress"); ("status", JsStr status);
         ("progress", JsNum percent); ("currentAgent", JsStr "analyst");
         ("currentTask", JsStr "ratios"); ("estimatedTime", JsNum 30)].

Definition heartbeat : JsValue := JsObj [("type", JsStr "heartbeat")].

(** The report page is mounted for a running task: the status is
    fetched (request 1), synchronisation starts (socket 2, interval 3)
    and the socket opens. *)
Definition tracking : World :=
  dispatch_all no_url_refused
    [called (call_fetchTaskStatus "t1");
     settled 1%positive (inr (task "running" 5));
     called (call_startStatusSync "t1");
     ws_open 2%positive]
    initial_world.

(** The interval fires and the status request of the poll leaves
    (request 4). *)
Definition poll_in_flight : World :=
  dispatch no_url_refused tracking (interval_fired 3%positive).

(** While that request is under way the stream reports the end. *)
Definition completed_by_push : World :=
  dispatch no_url_refused poll_in_flight
    (ws_message 2%positive (Json (message "completed" 100))).

(** While that request is under way the user leaves through [goBack]. *)
Definition left_by_cleanup : World :=
  dispatch no_url_refused poll_in_flight (called call_cleanup).

(** The answer to request 4, taken while the task was running. *)
Definition late_answer (percent : Z) : Event :=
  settled 4%positive (inr (task "running" percent)).

(** The page is left while the task runs ([onUnmounted] stops the
    synchronisation) and mounted again before the reconnect delay of
    the closed socket has passed. *)
Definition leave_and_return : list Event :=
  [called call_stopStatusSync;
   ws_closed 2%positive;
   called (call_fetchTaskStatus "t1");
   settled 5%positive (inr (task "running" 5));
   called (call_startStatusSync "t1");
   timeout_fired 4%positive;
   ws_closed 6%positive;
   timeout_fired 9%positive].

End Sample.

(** ** The request helpers of the store

    [fetchTaskResult], [startResearch], [fetchHistory] and
    [fetchReports].  Each is an [async] function with its [await]s
    inside one [try]; it is modelled from the moment it resumes for the
    last time, with the answers of its requests handed in.  The flags
    and lists only these helpers use live in [App], around the world of
    the synchronisation code. *)

(** [task.report_data = report] *)
Definition with_report_data (v : option JsValue) (k : ResearchTask.t) : ResearchTask.t :=
  ResearchTask.mk
    (ResearchTask.id k) (ResearchTask.company k) (ResearchTask.status k)
    (ResearchTask.depth k) (ResearchTask.focus_areas k)
    (ResearchTask.progress k) (ResearchTask.current_agent k)
    (ResearchTask.current_task k) (ResearchTask.estimated_time k)
    (ResearchTask.created_at k) (ResearchTask.started_at k)
    (ResearchTask.completed_at k) v (ResearchTask.error_message k).

(** What [researchApi.getTaskResult] answers. *)
Record TaskResult : Type := mkTaskResult {
  result_task_id : string;
  result_company : string;
  result_status : string;
  result_report : JsValue;
}.

(** [fetchTaskResult(taskId)] from its [await] on. *)
Definition fetchTaskResult_resume
    (taskId : string) (settled : JsError + TaskResult) : Js JsValue :=
  try_catch
    (result <- lift settled ;;
     task <- read currentTask ;;
     match task with
     | Some k =>
         when (String.eqb (ResearchTask.id k) taskId)
           (assign_task (with_report_data (Some (result_report result))))
     | None => ret tt
     end ;;
     ret (result_report result))
    (fun e =>
       set_error (Some (message e)) ;;
       throw e).

(** [progress.value.status = v] *)
Definition assign_progress_status (v : JsValue) : Js unit :=
  p <- read progress ;;
  set_progress
    (ResearchProgress.mk v (ResearchProgress.progress p)
       (ResearchProgress.currentAgent p) (ResearchProgress.currentTask p)
       (ResearchProgress.estimatedTime p)).

(** [text || fallback] on strings. *)
Definition str_or (text fallback : string) : string :=
  if String.eqb text "" then fallback else text.

Record ResearchRequest : Type := mkResearchRequest {
  request_company : string;
  request_depth : string;
  request_focus : list string;
}.

(** What [researchApi.startResearch] answers. *)
Record StartResult : Type := mkStartResult {
  task_id : string;
  start_message : string;
}.

Record App : Type := mkApp {
  app_world : World;
  isLoading : bool;
  historyTasks : list ResearchTask.t;
  reports : list JsValue;
}.

Definition set_isLoading (v : bool) (a : App) : App :=
  mkApp (app_world a) v (historyTasks a) (reports a).
Definition set_historyTasks (v : list ResearchTask.t) (a : App) : App :=
  mkApp (app_world a) (isLoading a) v (reports a).
Definition set_reports (v : list JsValue) (a : App) : App :=
  mkApp (app_world a) (isLoading a) (historyTasks a) v.

(** Runs store code inside the application state. *)
Definition in_world {A} (m : Js A) (a : App) : Outcome A * App :=
  match m (app_world a) with
  | (o, w) => (o, mkApp w (isLoading a) (historyTasks a) (reports a))
  end.

Section Helpers.

Variable url_refused : string -> bool.

(** [startResearch(company, depth = 'standard', focus = [])] up to its
    first [await]: the flags are set and the request is built. *)
Definition startResearch_begin
    (company : string) (depth : option string) (focus : option (list string))
    (a : App) : ResearchRequest * App :=
  let a1 := set_isLoading true a in
  let a2 := snd (in_world (set_error None) a1) in
  (mkResearchRequest company (default "standard" depth) (default [] focus), a2).

(** The [try] block of [startResearch] with its [catch]. *)
Definition startResearch_try
    (started : JsError + StartResult) (fetched : JsError + ResearchTask.t)
    : Js string :=
  try_catch
    (result <- lift started ;;
     task <- lift fetched ;;
     set_currentTask (Some task) ;;
     resetProgress ;;
     assign_progress_status (ResearchTask.status task) ;;
     startStatusSync url_refused (task_id result) ;;
     ret (task_id result))
    (fun e =>
       set_error (Some (str_or (message e) "启动研究失败")) ;;
       throw e).

(** [startResearch] from the [await] that settles last, [finally]
    included.  [fetched] is consulted only when the first request
    succeeded. *)
Definition startResearch_resume
    (started : JsError + StartResult) (fetched : JsError + ResearchTask.t)
    (a : App) : Outcome string * App :=
  match in_world (startResearch_try started fetched) a with
  | (o, a') => (o, set_isLoading false a')
  end.

End Helpers.

(** [fetchHistory] from its [await] on; the error is kept, not thrown
    again. *)
Definition fetchHistory_resume
    (settled : JsError + list ResearchTask.t) (a : App) : Outcome unit * App :=
  match settled with
  | inr tasks => (Returned tt, set_historyTasks tasks a)
  | inl e => in_world (set_error (Some (message e))) a
  end.

(** [fetchReports] from its [await] on. *)
Definition fetchReports_resume
    (settled : JsError + list JsValue) (a : App) : Outcome unit * App :=
  match settled with
  | inr listed => (Returned tt, set_reports listed a)
  | inl e => in_world (set_error (Some (message e))) a
  end.

(** ** Tokens, request interceptors and the router guard
    ([api/auth.ts], [router/index.ts]) *)

Module Auth.

Definition TOKEN_KEY : string := "auth_token".
Definition USER_KEY : string := "auth_user".

(** [localStorage] is a map from keys to strings; [getItem] of a key
    that is not stored is [null]. *)
Definition getToken (localStorage : gmap string string) : option string :=
  localStorage !! TOKEN_KEY.

Definition setToken (token : string) (localStorage : gmap string string)
    : gmap string string :=
  <[TOKEN_KEY := token]> localStorage.

Definition removeToken (localStorage : gmap string string) : gmap string string :=
  delete USER_KEY (delete TOKEN_KEY localStorage).

(** [!!getToken()]: a stored empty string counts as no token. *)
Definition isAuthenticated (localStorage : gmap string string) : bool :=
  match getToken localStorage with
  | Some token => negb (String.eqb token "")
  | None => false
  end.

(** The request interceptor, on the headers of the request. *)
Definition with_authorization
    (localStorage : gmap string string) (headers : gmap string string)
    : gmap string string :=
  match getToken localStorage with
  | Some token =>
      if negb (String.eqb token "")
      then <["Authorization" := "Bearer " +:+ token]> headers
      else headers
  | None => headers
  end.

(** An error of a request: [error.response?.status]. *)
Record RequestError : Type := mkRequestError {
  response_status : option Z;
  error_text : string;
}.

Record Page : Type := mkPage {
  localStorage : gmap string string;
  location_href : string;
}.

(** The response interceptor of [createAuthenticatedApi] on a failed
    request: the page it leaves, and the error it rejects with. *)
Definition on_rejected (err : RequestError) (p : Page) : Page * RequestError :=
  match response_status err with
  | Some 401 => (mkPage (removeToken (localStorage p)) "/login", err)
  | _ => (p, err)
  end.

End Auth.

Module Router.

Inductive RouteName : Type :=
| Login | Home | Chat | Research | ReportDetail | History.

Definition RouteName_eqb (a b : RouteName) : bool :=
  match a, b with
  | Login, Login | Home, Home | Chat, Chat | Research, Research
  | ReportDetail, ReportDetail | History, History => true
  | _, _ => false
  end.

(** [meta]: a key that is not written is [undefined]. *)
Record RouteMeta : Type := mkRouteMeta {
  requiresAuth : option bool;
  guest : option bool;
}.

Record RouteRecord : Type := mkRouteRecord {
  path : string;
  name : RouteName;
  meta : RouteMeta;
}.

Definition routes : list RouteRecord :=
  [mkRouteRecord "/login" Login (mkRouteMeta None (Some true));
   mkRouteRecord "/" Home (mkRouteMeta (Some true) None);
   mkRouteRecord "/chat/:conversationId" Chat (mkRouteMeta (Some true) None);
   mkRouteRecord "/research/:taskId" Research (mkRouteMeta (Some true) None);
   mkRouteRecord "/report/:reportId" ReportDetail (mkRouteMeta (Some true) None);
   mkRouteRecord "/history" History (mkRouteMeta (Some true) None)].

(** The location a navigation goes to: the meta fields of the record it
    matched (none when it matched no record) and its full path. *)
Record RouteLocation : Type := mkRouteLocation {
  to_meta : RouteMeta;
  fullPath : string;
}.

Definition located (r : RouteRecord) (full : string) : RouteLocation :=
  mkRouteLocation (meta r) full.

Definition unmatched (full : string) : RouteLocation :=
  mkRouteLocation (mkRouteMeta None None) full.

(** What the guard hands to [next]. *)
Inductive Next : Type :=
| proceed
| go_to (target : RouteName) (redirect : option string).

Definition flag (v : option bool) : bool := default false v.

Definition beforeEach (storage : gmap string string) (to : RouteLocation) : Next :=
  let authenticated := Auth.isAuthenticated storage in
  if flag (requiresAuth (to_meta to)) && negb authenticated
  then go_to Login (Some (fullPath to))
  else if flag (guest (to_meta to)) && authenticated
  then go_to Home None
  else proceed.

(** The record a navigation by name resolves to. *)
Definition named (n : RouteName) : option RouteRecord :=
  List.find (fun r => RouteName_eqb (name r) n) routes.

End Router.

(** ** The step display ([components/ResearchProgress.vue]) *)

Module ProgressView.

Record AgentStep : Type := mkAgentStep {
  step_name : string;
  step_label : string;
  step_icon : string;
}.

Definition agentSteps : list AgentStep :=
  [mkAgentStep "Data Collector" "数据收集" "Search";
   mkAgentStep "Financial Analyzer" "财务分析" "DataLine";
   mkAgentStep "Market Analyzer" "市场分析" "TrendCharts";
   mkAgentStep "Report Generator" "报告生成" "Document"].

(** [Array.prototype.findIndex]: the first index that satisfies the
    test, or -1. *)
Fixpoint findIndex {A} (test : A -> bool) (items : list A) : Z :=
  match items with
  | [] => -1
  | x :: rest =>
      if test x then 0
      else
        let i := findIndex test rest in
        if i <? 0 then -1 else i + 1
  end.

Definition currentStepIndex (shown : ResearchProgress.t) : Z :=
  let agentName := ResearchProgress.currentAgent shown in
  let index := findIndex (fun s => is_str agentName (step_name s)) agentSteps in
  if index >=? 0 then index else 0.

End ProgressView.

(** ** The report page ([views/ReportDetail.vue])

    The page that tracks a task: its [onMounted] hook, in the two
    stretches between its [await]s, and its watcher on
    [store.progress.status].  The page has a loading flag of its own and
    shows messages. *)

(** [`${v}`]: the text of a value in a template literal.  (Numbers are
    the integers, which print in decimal.) *)
Fixpoint to_text (v : JsValue) : string :=
  match v with
  | JsUndefined => "undefined"
  | JsNull => "null"
  | JsBool true => "true"
  | JsBool false => "false"
  | JsNum n => pretty n
  | JsStr s => s
  | JsArr items =>
      (fix join (l : list JsValue) : string :=
         match l with
         | [] => ""
         | x :: rest =>
             match x with
             | JsUndefined | JsNull => ""
             | _ => to_text x
             end
             +:+ match rest with
                 | [] => ""
                 | _ :: _ => "," +:+ join rest
                 end
         end) items
  | JsObj _ => "[object Object]"
  end.

(** [Object.is] between the value a watcher saw last and the value it
    reads after an update: equal primitives are the same value; an array
    or object that arrived with the update is a new one. *)
Definition same_value (a b : JsValue) : bool :=
  match a, b with
  | JsUndefined, JsUndefined => true
  | JsNull, JsNull => true
  | JsBool x, JsBool y => Bool.eqb x y
  | JsNum x, JsNum y => x =? y
  | JsStr x, JsStr y => String.eqb x y
  | _, _ => false
  end.

Inductive Toast : Type :=
| toast_error (text : string)
| toast_success (text : string).

Record ReportPage : Type := mkReportPage {
  page_world : World;
  isLoadingResult : bool;
  toasts : list Toast;
  (* the status the watcher saw last *)
  watched : JsValue;
  (* the calls of [store.fetchTaskResult] made so far *)
  results_requested : nat;
}.

(** The watcher, run by the scheduler after the store has assigned
    [progress]: when the status differs from the one seen last, the
    callback runs up to its [await] (or to its end). *)
Definition watch_status (p : ReportPage) : ReportPage :=
  let newStatus := ResearchProgress.status (progress (store (page_world p))) in
  let oldStatus := watched p in
  if same_value newStatus oldStatus then p
  else
    let w := run (log ("状态变化: " +:+ to_text oldStatus +:+ " -> "
                         +:+ to_text newStatus) None)
                 (page_world p) in
    if is_str newStatus "completed"
    then mkReportPage w true (toasts p) newStatus (S (results_requested p))
    else if is_str newStatus "failed"
    then mkReportPage w (isLoadingResult p)
           (toast_error "研究失败" :: toasts p) newStatus (results_requested p)
    else mkReportPage w (isLoadingResult p) (toasts p) newStatus
           (results_requested p).

(** The callback of the watcher from the moment the request of its
    [store.fetchTaskResult(props.taskId)] settles. *)
Definition watch_result
    (taskId : string) (settled : JsError + TaskResult) (p : ReportPage)
    : ReportPage :=
  match fetchTaskResult_resume taskId settled (page_world p) with
  | (Returned _, w) =>
      mkReportPage w false (toast_success "研究完成！" :: toasts p)
        (watched p) (results_requested p)
  | (Thrown _, w) =>
      mkReportPage w false (toast_error "获取研究结果失败" :: toasts p)
        (watched p) (results_requested p)
  end.

Section Page.

Variable url_refused : string -> bool.

(** The [try] block of [onMounted] after [store.fetchTaskStatus] has
    returned, up to the [await] of [store.fetchTaskResult]; the result
    tells whether that point is reached. *)
Definition onMounted_rest (taskId : string) : Js bool :=
  active <- read isResearching ;;
  when active (startStatusSync url_refused taskId) ;;
  task <- read currentTask ;;
  ret (match task with
       | Some k => is_str (ResearchTask.status k) "completed"
       | None => false
       end).

(** What the page does when the request of
    [store.fetchTaskStatus(props.taskId)] settles: [fetchTaskStatus]
    resumes; if it assigned [progress], the watcher runs; then the hook
    resumes, up to its next [await] or its end.  The result tells
    whether the hook awaits the result. *)
Definition onMounted_fetched
    (taskId : string) (settled : JsError + ResearchTask.t) (p : ReportPage)
    : bool * ReportPage :=
  match fetchTaskStatus_resume settled (page_world p) with
  | (Thrown _, w) =>
      (false, mkReportPage w (isLoadingResult p)
                (toast_error "获取任务信息失败" :: toasts p)
                (watched p) (results_requested p))
  | (Returned _, w) =>
      let p1 := watch_status
                  (mkReportPage w (isLoadingResult p) (toasts p)
                     (watched p) (results_requested p)) in
      match onMounted_rest taskId (page_world p1) with
      | (Returned true, w2) =>
          (true, mkReportPage w2 true (toasts p1) (watched p1)
                   (S (results_requested p1)))
      | (Returned false, w2) =>
          (false, mkReportPage w2 (isLoadingResult p1) (toasts p1)
                    (watched p1) (results_requested p1))
      | (Thrown _, w2) =>
          (false, mkReportPage w2 (isLoadingResult p1)
                    (toast_error "获取任务信息失败" :: toasts p1)
                    (watched p1) (results_requested p1))
      end
  end.

(** [onMounted] from the moment the request of its
    [store.fetchTaskResult(props.taskId)] settles. *)
Definition onMounted_result
    (taskId : string) (settled : JsError + TaskResult) (p : ReportPage)
    : ReportPage :=
  match fetchTaskResult_resume taskId settled (page_world p) with
  | (Returned _, w) =>
      mkReportPage w false (toasts p) (watched p) (results_requested p)
  | (Thrown _, w) =>
      mkReportPage w (isLoadingResult p)
        (toast_error "获取任务信息失败" :: toasts p)
        (watched p) (results_requested p)
  end.

End Page.

(** More concrete data. *)
Module Sample2.

Definition report : JsValue := JsObj [("title", JsStr "贵州茅台 研究报告")].

Definition result : TaskResult := mkTaskResult "t1" "贵州茅台" "completed" report.

Definition app : App := mkApp Sample.tracking false [] [].

(** The page as it is set up on a store that has tracked nothing yet. *)
Definition page : ReportPage :=
  mkReportPage initial_world false [] (JsStr "pending") 0.

(** The page as it is set up on a store that still shows a completed
    task. *)
Definition page_revisited : ReportPage :=
  mkReportPage
    (run (updateFromTask (Sample.task "completed" 100)) initial_world)
    false [] (JsStr "completed") 0.

Definition storage : gmap string string :=
  <["auth_token" := "abc"]> (<["auth_user" := "{}"]> (<["theme" := "dark"]> ∅)).

End Sample2.

(** ** Symbolic evaluation of callbacks *)

Ltac js_unfold :=
  cbv beta iota zeta delta
    [run bind ret throw try_catch when read update_store update_browser lift
     set_currentTask set_progress set_wsConnection set_pollingTimer
     set_wsRetryCount set_error assign_task emit fresh update_sockets update_intervals
     update_timeouts update_requests close clearInterval setInterval
     setTimeout getTaskStatus log log_error JSON_parse set_readyState
     stopPolling stopStatusSync updateFromTask polling_tick polling_resume
     startPolling connectWebSocket createProgressWebSocket ws_onopen
     ws_onmessage ws_onerror ws_onclose reconnect startStatusSync
     fetchTaskStatus fetchTaskStatus_resume resetProgress cleanup
     apply_frame isResearching snapshot held_status held_progress
     store browser currentTask progress wsConnection pollingTimer
     wsRetryCount error sockets intervals timeouts requests effects
     next_handle fst snd
     ResearchTask.with_status ResearchTask.with_progress
     ResearchTask.with_current_agent ResearchTask.with_current_task
     ResearchTask.id ResearchTask.company ResearchTask.status
     ResearchTask.depth ResearchTask.focus_areas ResearchTask.progress
     ResearchTask.current_agent ResearchTask.current_task
     ResearchTask.estimated_time ResearchTask.created_at
     ResearchTask.started_at ResearchTask.completed_at
     ResearchTask.report_data ResearchTask.error_message
     ResearchProgress.status ResearchProgress.progress
     ResearchProgress.currentAgent ResearchProgress.currentTask
     ResearchProgress.estimatedTime].

Ltac destruct_world w :=
  let task := fresh "task" in
  destruct w as [[task ? ? ? ? ?] [? ? ? ? ? ?]];
  try (destruct task as [[]|]).

Ltac js_case :=
  match goal with
  | |- context [match ?x with Some _ => _ | None => _ end] =>
      is_var x; destruct x
  | |- context [if terminal ?v then _ else _] => destruct (terminal v) eqn:?
  | |- context [if is_str ?v ?s then _ else _] => destruct (is_str v s) eqn:?
  end.

Ltac js_eval := js_unfold; repeat (js_case; js_unfold).

Ltac js_unfold_in H :=
  cbv beta iota zeta delta
    [run bind ret throw try_catch when read update_store update_browser lift
     set_currentTask set_progress set_wsConnection set_pollingTimer
     set_wsRetryCount set_error assign_task emit fresh update_sockets update_intervals
     update_timeouts update_requests close clearInterval setInterval
     setTimeout getTaskStatus log log_error JSON_parse set_readyState
     stopPolling stopStatusSync updateFromTask polling_tick polling_resume
     startPolling connectWebSocket createProgressWebSocket ws_onopen
     ws_onmessage ws_onerror ws_onclose reconnect startStatusSync
     fetchTaskStatus fetchTaskStatus_resume resetProgress cleanup
     apply_frame isResearching snapshot held_status held_progress
     store browser currentTask progress wsConnection pollingTimer
     wsRetryCount error sockets intervals timeouts requests effects
     next_handle fst snd
     ResearchTask.with_status ResearchTask.with_progress
     ResearchTask.with_current_agent ResearchTask.with_current_task
     ResearchTask.id ResearchTask.company ResearchTask.status
     ResearchTask.depth ResearchTask.focus_areas ResearchTask.progress
     ResearchTask.current_agent ResearchTask.current_task
     ResearchTask.estimated_time ResearchTask.created_at
     ResearchTask.started_at ResearchTask.completed_at
     ResearchTask.report_data ResearchTask.error_message
     ResearchProgress.status ResearchProgress.progress
     ResearchProgress.currentAgent ResearchProgress.currentTask
     ResearchProgress.estimatedTime] in H.

Ltac destruct_state w := destruct w as [[? ? ? ? ? ?] [? ? ? ? ? ?]].

Ltac quiet_setup w Hs Hi Hr :=
  unfold quiet, socket_live, interval_running in *;
  destruct_state w; js_unfold; js_unfold_in Hs; js_unfold_in Hi; js_unfold_in Hr.


(** ** Reading a parsed message *)

Lemma property_field data type :
  property data "type" = inr type ->
  forall k, property data k = inr (field data k).
Proof.
  intros H k. unfold field. destruct data; try discriminate; reflexivity.
Qed.

Lemma status_frame_push data :
  status_frame (push_frame data) = true ->
  (forall k, property data k = inr (field data k)) /\
  is_str (field data "type") "heartbeat" = false.
Proof.
  simpl. destruct (property data "type") as [e|type] eqn:Ht; [discriminate|].
  intros H. split; [now apply (property_field _ type)|].
  unfold field. rewrite Ht. now apply negb_true_iff.
Qed.

Lemma terminal_not_researching status :
  terminal status = true ->
  is_str status "running" || is_str status "pending" = false.
Proof.
  unfold terminal. destruct status; simpl; try discriminate.
  intros [H|H]%orb_true_iff; apply String.eqb_eq in H; subst; reflexivity.
Qed.

(** ** Frames overwrite the snapshot *)

Lemma apply_frame_record f w :
  status_frame f = true ->
  progress (store (run (apply_frame f) w)) = frame_record f.
Proof.
  intros Hf. destruct f as [k|data].
  - destruct_world w; destruct k; js_eval; reflexivity.
  - destruct (status_frame_push _ Hf) as [Hp Hh].
    destruct_world w; js_unfold;
      rewrite !Hp; js_unfold; rewrite Hh; js_eval; reflexivity.
Qed.

Lemma frame_record_progress f :
  ResearchProgress.progress (frame_record f) = frame_progress f.
Proof. destruct f; reflexivity. Qed.

(** C1, as the code has it: a status frame from either channel
    replaces the progress record field by field with what the frame
    carries, [progress] included, whatever value was held (no
    comparison is made).  The progress values observed after each frame
    of a sequence are therefore exactly the values the frames carried,
    in the order of arrival, and are non-decreasing when the frames
    arrive in non-decreasing order of progress. *)
Theorem C1_progress_follows_frames (frames : list Frame) (w : World) :
  Forall (fun f => status_frame f = true) frames ->
  map (fun w' => progress (store w')) (observe frames w)
  = map frame_record frames /\
  observed_progress frames w = map frame_progress frames.
Proof.
  intros H. revert w. induction H as [|f rest Hf _ IH]; intros w.
  - split; reflexivity.
  - destruct (IH (run (apply_frame f) w)) as [IHr IHp].
    unfold observed_progress, held_progress in *. simpl.
    rewrite IHr, IHp, (apply_frame_record f w Hf), frame_record_progress.
    split; reflexivity.
Qed.

Lemma C1_progress_follows_frames_witness :
  Forall (fun f => status_frame f = true)
    [poll_frame (Sample.task "running" 10);
     push_frame (Sample.message "running" 40);
     poll_frame (Sample.task "running" 60)] /\
  observed_progress
    [poll_frame (Sample.task "running" 10);
     push_frame (Sample.message "running" 40);
     poll_frame (Sample.task "running" 60)]
    Sample.tracking
  = [JsNum 10; JsNum 40; JsNum 60].
Proof.
  assert (Forall (fun f => status_frame f = true)
            [poll_frame (Sample.task "running" 10);
             push_frame (Sample.message "running" 40);
             poll_frame (Sample.task "running" 60)]) as H
    by (repeat constructor).
  split; [exact H|].
  exact (proj2 (C1_progress_follows_frames _ Sample.tracking H)).
Defined.

(** C1 as claimed fails: with progress 40 held while the task runs, a
    stale poll frame carrying 25 is applied and the snapshot goes back
    to 25. *)
Lemma C1_progress_regresses :
  let frames := [poll_frame (Sample.task "running" 10);
                 push_frame (Sample.message "running" 40);
                 poll_frame (Sample.task "running" 25)] in
  map (fun w => (held_status w, held_progress w)) (observe frames initial_world)
  = [(JsStr "running", JsNum 10);
     (JsStr "running", JsNum 40);
     (JsStr "running", JsNum 25)]
  /\ ~ Sorted Z.le [10; 40; 25].
Proof.
  split; [vm_compute; reflexivity|].
  intros H. inversion H as [|? ? H1 _]; subst.
  inversion H1 as [|? ? _ H2]; subst.
  inversion H2 as [|? ? H3]; subst. lia.
Qed.

(** C2, as the code has it: a status frame from either channel
    overwrites [status] with the value it carries, whatever status was
    held (no order between statuses is consulted and no frame is
    discarded as stale); the task held afterwards, if any, carries the
    same status. *)
Theorem C2_status_follows_frame (f : Frame) (w : World) :
  status_frame f = true ->
  let w' := run (apply_frame f) w in
  held_status w' = frame_status f /\
  forall k, currentTask (store w') = Some k ->
            ResearchTask.status k = frame_status f.
Proof.
  intros Hf. destruct f as [k|data].
  - destruct_world w; destruct k; js_eval;
      (split; [reflexivity|intros ? [= <-]; reflexivity]).
  - destruct (status_frame_push _ Hf) as [Hp Hh].
    destruct_world w; js_unfold;
      rewrite !Hp; js_unfold; rewrite Hh; js_eval;
      (split; [reflexivity|intros ? [= <-] || intros ? [=]; reflexivity]).
Qed.

Lemma C2_status_follows_frame_witness :
  status_frame (push_frame (Sample.message "pending" 0)) = true /\
  held_status (run (apply_frame (push_frame (Sample.message "pending" 0)))
                   Sample.tracking)
  = JsStr "pending".
Proof.
  split; [reflexivity|].
  apply (C2_status_follows_frame (push_frame (Sample.message "pending" 0))
           Sample.tracking).
  reflexivity.
Defined.

(** C2 as claimed fails: the snapshot holds [running] at 40; a frame
    reporting [pending] is not discarded, it replaces the snapshot and
    the status goes back to [pending]. *)
Lemma C2_backward_status_applied :
  let w := run (apply_frame (push_frame (Sample.message "running" 40)))
               Sample.tracking in
  let w' := run (apply_frame (poll_frame (Sample.task "pending" 0))) w in
  held_status w = JsStr "running" /\
  held_status w' = JsStr "pending" /\
  snapshot w' <> snapshot w.
Proof.
  vm_compute. repeat split; discriminate.
Qed.

(** ** Duplicate delivery *)

(** C9: applying a frame from either channel a second time changes
    nothing of the snapshot, nor of any other variable of the store.
    This holds for every poll response and every parsed push message,
    heartbeats and unreadable values included. *)
Theorem C9_apply_frame_idempotent (f : Frame) (w : World) :
  let once := run (apply_frame f) w in
  let twice := run (apply_frame f) once in
  snapshot twice = snapshot once /\ store twice = store once.
Proof.
  destruct f as [k|data].
  - destruct_world w; destruct k; js_eval; split; reflexivity.
  - destruct (property data "type") as [e|type] eqn:Ht.
    + destruct_world w; js_unfold; rewrite Ht; split; reflexivity.
    + pose proof (property_field _ _ Ht) as Hp.
      destruct_world w; js_unfold; rewrite !Hp; js_eval; split; reflexivity.
Qed.

(** ** Heartbeats *)

(** C7: a push message whose [type] is [heartbeat] leaves the snapshot
    unchanged, whatever else it carries and whatever the state of the
    socket it arrives on; nothing else changes either. *)
Theorem C7_heartbeat_ignored
    (url_refused : string -> bool) (w : World) (ws : handle) (data : JsValue) :
  is_str (field data "type") "heartbeat" = true ->
  let w' := dispatch url_refused w (ws_message ws (Json data)) in
  snapshot w' = snapshot w /\ w' = w.
Proof.
  intros Hh. cbv zeta.
  enough (dispatch url_refused w (ws_message ws (Json data)) = w) as ->
    by (split; reflexivity).
  unfold dispatch.
  destruct (readyState <$> sockets (browser w) !! ws) as [[]|]; try reflexivity.
  assert (property data "type" = inr (field data "type")) as Ht.
  { unfold field in *. destruct data; try discriminate Hh; reflexivity. }
  js_unfold. rewrite Ht. js_unfold. rewrite Hh. reflexivity.
Qed.

Lemma C7_heartbeat_ignored_witness :
  is_str (field Sample.heartbeat "type") "heartbeat" = true /\
  snapshot (dispatch Sample.no_url_refused Sample.tracking
              (ws_message 2%positive (Json Sample.heartbeat)))
  = snapshot Sample.tracking.
Proof.
  split; [reflexivity|].
  apply (C7_heartbeat_ignored Sample.no_url_refused Sample.tracking
           2%positive Sample.heartbeat).
  reflexivity.
Defined.

(** ** Teardown *)

Lemma closed_socket_not_live (sk : gmap handle WebSocket) (ws : handle) :
  match alter (fun s => if live s then with_readyState CLOSING s else s) ws sk !! ws with
  | Some s => live s
  | None => false
  end = false.
Proof.
  rewrite lookup_alter_eq. destruct (sk !! ws) as [[taskId []]|]; reflexivity.
Qed.

Lemma cleared_interval_not_running (iv : gmap handle string) (timer : handle) :
  bool_decide (is_Some (delete timer iv !! timer)) = false.
Proof.
  rewrite lookup_delete_eq. apply bool_decide_eq_false. now intros [? ?].
Qed.

Lemma stopStatusSync_returns (w : World) :
  fst (stopStatusSync w) = Returned ().
Proof. destruct_world w; js_eval; reflexivity. Qed.

Lemma stopStatusSync_idempotent (w : World) :
  run stopStatusSync (run stopStatusSync w) = run stopStatusSync w.
Proof. destruct_world w; js_eval; reflexivity. Qed.

Lemma apply_terminal_frame_torn_down (f : Frame) (w : World) :
  status_frame f = true ->
  terminal (frame_status f) = true ->
  torn_down w (run (apply_frame f) w).
Proof.
  intros Hf Ht. unfold torn_down, socket_live, interval_running.
  destruct f as [k|data].
  - simpl in Ht. destruct_world w; destruct k; js_unfold;
      simpl in Ht; rewrite Ht; js_eval;
      repeat split; try reflexivity; intros ? [=]; subst;
      auto using closed_socket_not_live, cleared_interval_not_running.
  - destruct (status_frame_push _ Hf) as [Hp Hh]. simpl in Ht.
    destruct_world w; js_unfold;
      rewrite !Hp; js_unfold; rewrite Hh, Ht; js_eval;
      repeat split; try reflexivity; intros ? [=]; subst;
      auto using closed_socket_not_live, cleared_interval_not_running.
Qed.

(** C5: a frame from either channel whose status is [completed] or
    [failed] tears both channels down: the held socket is closed and
    [wsConnection] is null, the held interval is cleared and
    [pollingTimer] is null.  Teardown is idempotent: [stopStatusSync]
    never throws, a further signal after the frame changes nothing, and
    from any state [n + 1] signals in a row leave the world (sockets,
    timers and the record of [close] and [clearInterval] calls included)
    as the first one left it. *)
Theorem C5_terminal_teardown_once (f : Frame) (w v : World) (n : nat) :
  status_frame f = true ->
  terminal (frame_status f) = true ->
  let w' := run (apply_frame f) w in
  torn_down w w' /\
  run stopStatusSync w' = w' /\
  fst (stopStatusSync v) = Returned () /\
  Nat.iter (S n) (run stopStatusSync) v = run stopStatusSync v.
Proof.
  intros Hf Ht w'. pose proof (apply_terminal_frame_torn_down f w Hf Ht) as Hd.
  repeat split; try apply Hd.
  - destruct Hd as (Hc & Hp & _). fold w' in Hc, Hp. clearbody w'.
    destruct w' as [[? ? c p ? ?] [? ? ? ? ? ?]]. simpl in Hc, Hp. subst.
    js_eval. reflexivity.
  - apply stopStatusSync_returns.
  - induction n as [|n IH]; [reflexivity|].
    change (Nat.iter (S (S n)) (run stopStatusSync) v)
      with (run stopStatusSync (Nat.iter (S n) (run stopStatusSync) v)).
    rewrite IH. apply stopStatusSync_idempotent.
Qed.

Lemma C5_terminal_teardown_once_witness :
  let f := push_frame (Sample.message "completed" 100) in
  (status_frame f = true /\ terminal (frame_status f) = true) /\
  torn_down Sample.tracking (run (apply_frame f) Sample.tracking) /\
  Nat.iter 3 (run stopStatusSync) Sample.tracking
  = run stopStatusSync Sample.tracking.
Proof.
  pose proof (C5_terminal_teardown_once
                (push_frame (Sample.message "completed" 100))
                Sample.tracking Sample.tracking 2 eq_refl eq_refl) as H.
  split; [split; reflexivity|].
  split; [apply H|apply H].
Defined.

(** ** Errors recovered on the spot *)

(** C8: when the status request of a poll tick fails, the failure is
    logged with [console.error] and nothing else happens: the snapshot,
    [pollingTimer], the running intervals and the sockets are unchanged,
    no exception escapes, and the next tick of the interval sends its
    request as usual; this holds whatever the state of the push channel.
    When the payload of a push message is not JSON, the message is
    dropped with a [console.error] entry and the store, snapshot
    included, is unchanged; this holds whether or not a poll is under
    way.  (A message for a socket that is not open is not delivered at
    all.) *)
Theorem C8_local_errors_recovered
    (url_refused : string -> bool) (w : World)
    (request ws : handle) (e : JsError) (text : string) :
  let failed := dispatch url_refused w (settled request (inl e)) in
  let dropped := dispatch url_refused w (ws_message ws (Unparseable text)) in
  (requests (browser w) !! request = Some by_polling ->
   snapshot failed = snapshot w /\
   effects (browser failed)
   = console_error "轮询状态失败:" (Some e) :: effects (browser w) /\
   pollingTimer (store failed) = pollingTimer (store w) /\
   wsConnection (store failed) = wsConnection (store w) /\
   intervals (browser failed) = intervals (browser w) /\
   sockets (browser failed) = sockets (browser w) /\
   forall timer taskId,
     intervals (browser w) !! timer = Some taskId ->
     effects (browser (dispatch url_refused failed (interval_fired timer)))
     = get_status (next_handle (browser w)) taskId :: effects (browser failed)) /\
  (snapshot dropped = snapshot w /\
   store dropped = store w /\
   sockets (browser dropped) = sockets (browser w) /\
   intervals (browser dropped) = intervals (browser w) /\
   requests (browser dropped) = requests (browser w)) /\
  (readyState <$> sockets (browser w) !! ws = Some OPEN ->
   effects (browser dropped)
   = console_error "[WS] 解析消息失败:" (Some (SyntaxError text))
       :: effects (browser w)).
Proof.
  intros failed dropped. split; [|split].
  - intros Hr.
    assert (failed
            = run (update_requests (delete request) ;; polling_resume (inl e)) w)
      as -> by (unfold failed, dispatch; rewrite Hr; reflexivity).
    repeat split; try (destruct_world w; js_eval; reflexivity).
    intros timer taskId Hi. unfold dispatch.
    replace (intervals (browser _) !! timer) with (Some taskId)
      by (rewrite <- Hi; destruct_world w; js_eval; reflexivity).
    destruct_world w; js_eval; reflexivity.
  - unfold dropped, dispatch.
    destruct (readyState <$> sockets (browser w) !! ws) as [[]|];
      repeat split; destruct_world w; js_eval; reflexivity.
  - intros Ho. unfold dropped, dispatch. rewrite Ho.
    destruct_world w; js_eval; reflexivity.
Qed.

Lemma C8_local_errors_recovered_witness :
  let w := dispatch Sample.no_url_refused Sample.tracking
             (interval_fired 3%positive) in
  (requests (browser w) !! 4%positive = Some by_polling /\
   readyState <$> sockets (browser w) !! 2%positive = Some OPEN) /\
  snapshot (dispatch Sample.no_url_refused w
              (settled 4%positive (inl (NetworkError "timeout"))))
  = snapshot w /\
  snapshot (dispatch Sample.no_url_refused w
              (ws_message 2%positive (Unparseable "{status:")))
  = snapshot w.
Proof.
  pose proof (C8_local_errors_recovered Sample.no_url_refused
                (dispatch Sample.no_url_refused Sample.tracking
                   (interval_fired 3%positive))
                4%positive 2%positive (NetworkError "timeout") "{status:")
    as (Hpoll & Hpush & _).
  split; [split; reflexivity|].
  split; [apply (Hpoll eq_refl)|apply Hpush].
Defined.

(** ** Silence after teardown *)

Lemma socket_state_live (w : World) (ws : handle) (r : ReadyState) :
  readyState <$> sockets (browser w) !! ws = Some r ->
  socket_live w ws = match r with CONNECTING | OPEN => true | _ => false end.
Proof.
  unfold socket_live, live. destruct (sockets (browser w) !! ws) as [s|]; simpl; [|discriminate].
  now intros [= ->].
Qed.

Lemma sockets_down_after_close (sk : gmap handle WebSocket) (c : handle) :
  (forall ws, match sk !! ws with Some s => live s | None => false end = true ->
              Some c = Some ws) ->
  forall ws,
    match alter (fun s => if live s then with_readyState CLOSING s else s) c sk !! ws with
    | Some s => live s
    | None => false
    end = false.
Proof.
  intros Ho ws. destruct (decide (c = ws)) as [->|Hne].
  - apply closed_socket_not_live.
  - rewrite lookup_alter_ne by assumption.
    destruct (match sk !! ws with Some s => live s | None => false end) eqn:E;
      [|reflexivity].
    apply Ho in E. congruence.
Qed.

Lemma sockets_down_unheld (sk : gmap handle WebSocket) :
  (forall ws, match sk !! ws with Some s => live s | None => false end = true ->
              @None handle = Some ws) ->
  forall ws, match sk !! ws with Some s => live s | None => false end = false.
Proof.
  intros Ho ws.
  destruct (match sk !! ws with Some s => live s | None => false end) eqn:E;
    [|reflexivity].
  apply Ho in E. discriminate.
Qed.

Lemma intervals_down_after_clear (iv : gmap handle string) (t : handle) :
  (forall timer, bool_decide (is_Some (iv !! timer)) = true -> Some t = Some timer) ->
  forall timer, bool_decide (is_Some (delete t iv !! timer)) = false.
Proof.
  intros Ho timer. destruct (decide (t = timer)) as [->|Hne].
  - apply cleared_interval_not_running.
  - rewrite lookup_delete_ne by assumption.
    destruct (bool_decide (is_Some (iv !! timer))) eqn:E; [|reflexivity].
    apply Ho in E. congruence.
Qed.

Lemma intervals_down_unheld (iv : gmap handle string) :
  (forall timer, bool_decide (is_Some (iv !! timer)) = true ->
                 @None handle = Some timer) ->
  forall timer, bool_decide (is_Some (iv !! timer)) = false.
Proof.
  intros Ho timer.
  destruct (bool_decide (is_Some (iv !! timer))) eqn:E; [|reflexivity].
  apply Ho in E. discriminate.
Qed.

Ltac channels_down :=
  repeat split;
  first [ reflexivity
        | assumption
        | now apply sockets_down_after_close
        | now apply sockets_down_unheld
        | now apply intervals_down_after_clear
        | now apply intervals_down_unheld
        | now apply terminal_not_researching ].

Lemma apply_terminal_frame_quiet (f : Frame) (w : World) :
  owned w ->
  status_frame f = true ->
  terminal (frame_status f) = true ->
  quiet (run (apply_frame f) w).
Proof.
  intros [Hs Hi] Hf Ht.
  unfold push_owned, polling_owned, quiet, socket_live, interval_running in *.
  destruct f as [k|data].
  - simpl in Ht. destruct_world w; destruct k; simpl in Ht;
      js_unfold_in Hs; js_unfold_in Hi; js_unfold; rewrite Ht; js_eval;
      unfold researching; js_unfold; channels_down.
  - destruct (status_frame_push _ Hf) as [Hp Hh]. simpl in Ht.
    destruct_world w; js_unfold_in Hs; js_unfold_in Hi; js_unfold;
      rewrite !Hp; js_unfold; rewrite Hh, Ht; js_eval;
      unfold researching; js_unfold; channels_down.
Qed.

Lemma cleanup_quiet (w : World) :
  owned w -> quiet (run cleanup w).
Proof.
  intros [Hs Hi].
  unfold push_owned, polling_owned, quiet, socket_live, interval_running in *.
  destruct_state w; js_unfold_in Hs; js_unfold_in Hi; js_eval;
    unfold researching; channels_down.
Qed.

Lemma cleanup_torn_down (w : World) :
  torn_down w (run cleanup w).
Proof.
  unfold torn_down, socket_live, interval_running.
  destruct_state w; js_eval;
    repeat split; try reflexivity; intros ? [=]; subst;
    auto using closed_socket_not_live, cleared_interval_not_running.
Qed.



Section Quiet.

Variable url_refused : string -> bool.

Lemma quiet_transport_event (w : World) (ev : Event) :
  quiet w ->
  transport_event ev = true ->
  quiet (dispatch url_refused w ev) /\
  snapshot (dispatch url_refused w ev) = snapshot w.
Proof.
  intros (Hs & Hi & Hr) Hev.
  destruct ev as [ws|ws data|ws|ws|timer|timer| |];
    try discriminate Hev; unfold dispatch.
  1-4: destruct (readyState <$> sockets (browser w) !! ws) as [r|] eqn:E;
    [|now repeat split];
    apply socket_state_live in E; rewrite Hs in E;
    destruct r; try discriminate E; try now repeat split.
  - quiet_setup w Hs Hi Hr. rewrite Hr, andb_false_r. js_unfold.
    repeat split; try assumption.
    intros ws'. destruct (decide (ws = ws')) as [->|Hne].
    + rewrite lookup_alter_eq. now destruct (_ !! ws').
    + rewrite lookup_alter_ne by assumption. apply Hs.
  - destruct (intervals (browser w) !! timer) eqn:E; [|now repeat split].
    specialize (Hi timer). unfold interval_running in Hi.
    rewrite E in Hi. apply bool_decide_eq_false in Hi.
    destruct Hi. eauto.
  - destruct (bool_decide _); [|now repeat split].
    quiet_setup w Hs Hi Hr. rewrite Hr.
    js_eval; now repeat split.
Qed.

Lemma quiet_transport_trace (events : list Event) (w : World) :
  quiet w ->
  Forall (fun ev => transport_event ev = true) events ->
  snapshot (dispatch_all url_refused events w) = snapshot w.
Proof.
  intros Hq H. revert w Hq.
  induction H as [|ev rest Hev _ IH]; intros w Hq; [reflexivity|].
  destruct (quiet_transport_event w ev Hq Hev) as [Hq' Hs].
  unfold dispatch_all in *. simpl. rewrite IH by assumption. exact Hs.
Qed.

(** In a quiet world that holds no connection, an event of a socket or
    a timer changes no variable of the store and sends no request. *)
Lemma quiet_transport_event_silent (w : World) (ev : Event) :
  quiet w ->
  wsConnection (store w) = None ->
  transport_event ev = true ->
  store (dispatch url_refused w ev) = store w /\
  requests (browser (dispatch url_refused w ev)) = requests (browser w).
Proof.
  intros (Hs & Hi & Hr) Hc Hev.
  destruct ev as [ws|ws data|ws|ws|timer|timer| |];
    try discriminate Hev; unfold dispatch.
  1-4: destruct (readyState <$> sockets (browser w) !! ws) as [r|] eqn:E;
    [|now split];
    apply socket_state_live in E; rewrite Hs in E;
    destruct r; try discriminate E; try now split.
  - quiet_setup w Hs Hi Hr. js_unfold_in Hc. subst.
    rewrite Hr, andb_false_r. js_unfold. now split.
  - destruct (intervals (browser w) !! timer) eqn:E; [|now split].
    specialize (Hi timer). unfold interval_running in Hi.
    rewrite E in Hi. apply bool_decide_eq_false in Hi.
    destruct Hi. eauto.
  - destruct (bool_decide _); [|now split].
    quiet_setup w Hs Hi Hr. rewrite Hr.
    js_eval; now split.
Qed.

Lemma quiet_transport_trace_silent (events : list Event) (w : World) :
  quiet w ->
  wsConnection (store w) = None ->
  Forall (fun ev => transport_event ev = true) events ->
  store (dispatch_all url_refused events w) = store w /\
  requests (browser (dispatch_all url_refused events w)) = requests (browser w) /\
  quiet (dispatch_all url_refused events w).
Proof.
  intros Hq Hc H. revert w Hq Hc.
  induction H as [|ev rest Hev _ IH]; intros w Hq Hc;
    [split; [reflexivity|split; [reflexivity|exact Hq]]|].
  destruct (quiet_transport_event w ev Hq Hev) as [Hq' _].
  destruct (quiet_transport_event_silent w ev Hq Hc Hev) as [Hst Hrq].
  unfold dispatch_all in *. simpl.
  destruct (IH (dispatch url_refused w ev) Hq') as (IHs & IHr & IHq);
    [now rewrite Hst|].
  rewrite IHs, IHr. split; [exact Hst|split; [exact Hrq|exact IHq]].
Qed.

End Quiet.

(** C3, as the code has it: a frame whose status is [completed] or
    [failed] tears both channels down: the held socket is closed and
    [wsConnection] is null, the held interval is cleared and
    [pollingTimer] is null, and the task is no longer researching.  In
    a store that owns its channels nothing is left running (no live
    socket, no interval), and no event of a socket or a timer that
    arrives afterwards (message, open, error, close, interval tick,
    reconnect timeout) changes the snapshot or any other variable of
    the store, sends a status request or brings a channel back.  The
    snapshot itself carries no guard: a status frame that is applied
    all the same (the answer to a status request that was already under
    way, or a later status fetch) is not covered. *)
Theorem C3_terminal_silences_transports
    (url_refused : string -> bool) (f : Frame) (w : World) (events : list Event) :
  status_frame f = true ->
  terminal (frame_status f) = true ->
  let w' := run (apply_frame f) w in
  let w'' := dispatch_all url_refused events w' in
  torn_down w w' /\
  isResearching (store w') = false /\
  (owned w ->
   Forall (fun ev => transport_event ev = true) events ->
   quiet w' /\
   snapshot w'' = snapshot w' /\
   store w'' = store w' /\
   requests (browser w'') = requests (browser w') /\
   quiet w'').
Proof.
  intros Hf Ht w' w''.
  pose proof (apply_terminal_frame_torn_down f w Hf Ht) as Hd.
  split; [exact Hd|]. split.
  - unfold w'. destruct f as [k|data].
    + simpl in Ht. destruct_world w; destruct k; simpl in Ht;
        js_unfold; rewrite Ht; js_eval;
        unfold researching; js_unfold; now apply terminal_not_researching.
    + destruct (status_frame_push _ Hf) as [Hp Hh]. simpl in Ht.
      destruct_world w; js_unfold; rewrite !Hp; js_unfold; rewrite Hh, Ht;
        js_eval; unfold researching; js_unfold;
        first [reflexivity | now apply terminal_not_researching].
  - intros Ho Hev.
    pose proof (apply_terminal_frame_quiet f w Ho Hf Ht) as Hq.
    destruct (quiet_transport_trace_silent url_refused events w' Hq
                (proj1 Hd) Hev) as (Hst & Hrq & Hq').
    split; [exact Hq|].
    split; [exact (f_equal (fun s => (currentTask s, progress s)) Hst)|].
    split; [exact Hst|]. split; assumption.
Qed.

Lemma tracking_owned : owned Sample.tracking.
Proof.
  split.
  - intros ws H. unfold socket_live in H.
    destruct (decide (ws = 2%positive)) as [->|Hne]; [reflexivity|].
    replace (sockets (browser Sample.tracking) !! ws) with (@None WebSocket) in H;
      [discriminate|].
    symmetry. change (sockets (browser Sample.tracking))
      with (<[2%positive := mkWebSocket "t1" OPEN]> (∅ : gmap handle WebSocket)).
    rewrite lookup_insert_ne by congruence. apply lookup_empty.
  - intros timer H. unfold interval_running in H.
    apply bool_decide_eq_true in H.
    destruct (decide (timer = 3%positive)) as [->|Hne]; [reflexivity|].
    change (intervals (browser Sample.tracking))
      with (<[3%positive := "t1"]> (∅ : gmap handle string)) in H.
    rewrite lookup_insert_ne, lookup_empty in H by congruence.
    now destruct H.
Qed.

Lemma C3_terminal_silences_transports_witness :
  let f := poll_frame (Sample.task "failed" 70) in
  let events := [ws_message 2%positive (Json (Sample.message "running" 80));
                 interval_fired 3%positive;
                 ws_closed 2%positive] in
  let w' := run (apply_frame f) Sample.tracking in
  (status_frame f = true /\ terminal (frame_status f) = true /\
   owned Sample.tracking /\
   Forall (fun ev => transport_event ev = true) events) /\
  torn_down Sample.tracking w' /\
  interval_running w' 3%positive = false /\
  snapshot (dispatch_all Sample.no_url_refused events w') = snapshot w' /\
  requests (browser (dispatch_all Sample.no_url_refused events w'))
  = requests (browser w').
Proof.
  intros f events w'.
  assert (Forall (fun ev => transport_event ev = true) events) as Hev
    by (repeat constructor).
  pose proof (C3_terminal_silences_transports Sample.no_url_refused f
                Sample.tracking events eq_refl eq_refl) as (Hd & _ & Hs).
  specialize (Hs tracking_owned Hev). destruct Hs as (Hq & Hsnap & _ & Hrq & _).
  split; [repeat split; first [exact Hev | apply tracking_owned]|].
  split; [exact Hd|]. split; [apply Hq|]. split; assumption.
Defined.

(** C3 as claimed fails: the push channel has delivered [completed] at
    100 and both channels are stopped; the answer to a status request
    that was under way then arrives with [running] at 90 and replaces
    the terminal snapshot. *)
Lemma C3_terminal_snapshot_overwritten :
  let w := Sample.completed_by_push in
  let w' := dispatch Sample.no_url_refused w (Sample.late_answer 90) in
  terminal (held_status w) = true /\
  held_progress w = JsNum 100 /\
  held_status w' = JsStr "running" /\
  held_progress w' = JsNum 90 /\
  snapshot w' = snapshot (run (apply_frame (poll_frame (Sample.task "running" 90))) w) /\
  snapshot w' <> snapshot w.
Proof.
  vm_compute. repeat split; discriminate.
Qed.

(** ** Cancellation *)

(** C4, as the code has it: in every store, [cleanup] closes the held
    socket and nulls [wsConnection], clears the held interval and nulls
    [pollingTimer], and resets the snapshot to no task and the initial
    progress record.  In a store that owns its channels nothing is left
    running, and no event of a socket or a timer that arrives afterwards
    (message, open, error, close, interval tick, reconnect timeout)
    changes the snapshot or any other variable of the store, sends a
    status request or brings a channel back.  The answer to a status
    request that was under way when [cleanup] ran is not covered. *)
Theorem C4_cleanup_silences_transports
    (url_refused : string -> bool) (w : World) (events : list Event) :
  let w' := run cleanup w in
  let w'' := dispatch_all url_refused events w' in
  torn_down w w' /\
  snapshot w' = snapshot initial_world /\
  (owned w ->
   Forall (fun ev => transport_event ev = true) events ->
   quiet w' /\
   snapshot w'' = snapshot w' /\
   store w'' = store w' /\
   requests (browser w'') = requests (browser w') /\
   quiet w'').
Proof.
  intros w' w''. pose proof (cleanup_torn_down w) as Hd.
  split; [exact Hd|]. split.
  - unfold w'. destruct_state w; js_eval; reflexivity.
  - intros Ho Hev. pose proof (cleanup_quiet w Ho) as Hq.
    destruct (quiet_transport_trace_silent url_refused events w' Hq
                (proj1 Hd) Hev) as (Hst & Hrq & Hq').
    split; [exact Hq|].
    split; [exact (f_equal (fun s => (currentTask s, progress s)) Hst)|].
    split; [exact Hst|]. split; assumption.
Qed.

Lemma C4_cleanup_silences_transports_witness :
  let events := [ws_message 2%positive (Json (Sample.message "running" 80));
                 interval_fired 3%positive;
                 ws_closed 2%positive;
                 timeout_fired 4%positive] in
  let w' := run cleanup Sample.tracking in
  (owned Sample.tracking /\
   Forall (fun ev => transport_event ev = true) events) /\
  torn_down Sample.tracking w' /\
  snapshot w' = snapshot initial_world /\
  snapshot (dispatch_all Sample.no_url_refused events w') = snapshot w'.
Proof.
  intros events w'.
  assert (Forall (fun ev => transport_event ev = true) events) as Hev
    by (repeat constructor).
  pose proof (C4_cleanup_silences_transports Sample.no_url_refused
                Sample.tracking events) as (Hd & Hreset & Hs).
  specialize (Hs tracking_owned Hev). destruct Hs as (_ & Hsnap & _).
  split; [split; [apply tracking_owned|exact Hev]|].
  split; [exact Hd|]. split; assumption.
Defined.

(** C4 as claimed fails: a status request is under way when [cleanup]
    runs; its answer arrives afterwards and [updateFromTask] puts the
    task back into the snapshot that [cleanup] had reset. *)
Lemma C4_late_poll_mutates_after_cleanup :
  let w := Sample.left_by_cleanup in
  let w' := dispatch Sample.no_url_refused w (Sample.late_answer 50) in
  snapshot w = snapshot initial_world /\
  wsConnection (store w) = None /\
  pollingTimer (store w) = None /\
  currentTask (store w') = Some (Sample.task "running" 50) /\
  held_progress w' = JsNum 50 /\
  snapshot w' <> snapshot w.
Proof.
  vm_compute. repeat split; discriminate.
Qed.

(** ** Bounded reconnection *)

Section Reconnect.

Variable url_refused : string -> bool.

Lemma round_reconnects
    (k : ResearchTask.t) prog (c : handle) timer (m : nat) err
    (sk : gmap handle WebSocket) iv rq ef (nh : handle) (r : ReadyState) :
  researching (Some k) = true ->
  url_refused (ResearchTask.id k) = false ->
  (m < MAX_WS_RETRIES)%nat ->
  readyState <$> sk !! c = Some r ->
  r <> CLOSED ->
  round url_refused
    (mkWorld (mkStore (Some k) prog (Some c) timer m err)
             (mkBrowser sk iv ∅ rq ef nh))
  = mkWorld (mkStore (Some k) prog (Some (Pos.succ nh)) timer (S m) err)
            (mkBrowser
               (<[Pos.succ nh := mkWebSocket (ResearchTask.id k) CONNECTING]>
                  (alter (with_readyState CLOSED) c sk))
               iv ∅ rq
               (new_WebSocket (Pos.succ nh) (ResearchTask.id k)
                :: set_timeout nh 2000
                :: console_log (retry_message (S m)) None
                :: console_log "[WS] 已关闭" None :: ef)
               (Pos.succ (Pos.succ nh))).
Proof.
  intros Hres Hurl Hm Hr Hne.
  apply Nat.ltb_lt in Hm. js_unfold_in Hurl.
  unfold round, connection_drops. cbn [store wsConnection].
  unfold dispatch at 1. cbn [browser sockets]. rewrite Hr.
  assert (run (set_readyState c CLOSED ;; ws_onclose)
            (mkWorld (mkStore (Some k) prog (Some c) timer m err)
                 (mkBrowser sk iv ∅ rq ef nh))
          = mkWorld (mkStore (Some k) prog None timer (S m) err)
              (mkBrowser (alter (with_readyState CLOSED) c sk) iv {[nh]} rq
                 (set_timeout nh 2000
                  :: console_log (retry_message (S m)) None
                  :: console_log "[WS] 已关闭" None :: ef)
                 (Pos.succ nh))) as Hdrop.
  { js_unfold. rewrite Hm, Hres. cbn [andb]. js_unfold.
    rewrite (right_id_L ∅ (∪)). reflexivity. }
  destruct r; try congruence; rewrite Hdrop; clear Hdrop.
  all: unfold delay_elapses, dispatch_all; cbn [browser timeouts];
    rewrite elements_singleton; cbn [map fold_left]; unfold dispatch;
    cbn [browser timeouts];
    rewrite bool_decide_eq_true_2 by set_solver;
    js_unfold; rewrite Hres; js_unfold; rewrite Hurl; js_unfold;
    rewrite difference_diag_L; reflexivity.
Qed.


Lemma last_drop_gives_up
    (k : option ResearchTask.t) prog (c : handle) timer err
    (sk : gmap handle WebSocket) iv ts rq ef (nh : handle) (r : ReadyState) :
  readyState <$> sk !! c = Some r ->
  r <> CLOSED ->
  connection_drops url_refused
    (mkWorld (mkStore k prog (Some c) timer MAX_WS_RETRIES err)
             (mkBrowser sk iv ts rq ef nh))
  = mkWorld (mkStore k prog None timer MAX_WS_RETRIES err)
            (mkBrowser (alter (with_readyState CLOSED) c sk) iv ts rq
               (console_log "[WS] 已关闭" None :: ef) nh).
Proof.
  intros Hr Hne. unfold connection_drops. cbn [store wsConnection].
  unfold dispatch. cbn [browser sockets]. rewrite Hr.
  destruct r; try congruence; js_unfold;
    rewrite Nat.ltb_irrefl; reflexivity.
Qed.

Lemma connecting_after_insert
    (sk : gmap handle WebSocket) (ws : handle) (taskId : string) :
  readyState <$> <[ws := mkWebSocket taskId CONNECTING]> sk !! ws
  = Some CONNECTING.
Proof. now rewrite lookup_insert_eq. Qed.

(** C6: the held connection closes four times in a row while the task
    is pending or running, starting from a retry count of zero, the
    reconnect delay passing after each closure.  The first three
    closures each schedule one timeout of 2000 ms whose callback opens
    one new socket for the same task; the fourth only logs the closure:
    no timeout, no socket, no exception.  Afterwards no connection is
    held, no timeout is pending, the count stands at the maximum, and
    the polling timer and the snapshot are as they were.  An [open]
    event on a connecting socket sets the count back to zero. *)
Theorem C6_reconnect_bounded
    (w : World) (k : ResearchTask.t) (c : handle) (r : ReadyState) :
  currentTask (store w) = Some k ->
  isResearching (store w) = true ->
  url_refused (ResearchTask.id k) = false ->
  wsRetryCount (store w) = 0%nat ->
  wsConnection (store w) = Some c ->
  readyState <$> sockets (browser w) !! c = Some r ->
  r <> CLOSED ->
  timeouts (browser w) = ∅ ->
  let n := next_handle (browser w) in
  let taskId := ResearchTask.id k in
  let closed := console_log "[WS] 已关闭" None in
  let w3 := round url_refused (round url_refused (round url_refused w)) in
  let w4 := connection_drops url_refused w3 in
  (effects (browser w4)
   = ([closed;
      new_WebSocket (later 5 n) taskId; set_timeout (later 4 n) 2000;
      console_log (retry_message 3) None; closed;
      new_WebSocket (later 3 n) taskId; set_timeout (later 2 n) 2000;
      console_log (retry_message 2) None; closed;
      new_WebSocket (later 1 n) taskId; set_timeout n 2000;
      console_log (retry_message 1) None; closed]
     ++ effects (browser w))%list) /\
  (wsRetryCount (store w4) = MAX_WS_RETRIES /\
   wsConnection (store w4) = None /\
   timeouts (browser w4) = ∅) /\
  (pollingTimer (store w4) = pollingTimer (store w) /\
   intervals (browser w4) = intervals (browser w) /\
   snapshot w4 = snapshot w) /\
  (forall v ws,
     readyState <$> sockets (browser v) !! ws = Some CONNECTING ->
     wsRetryCount (store (dispatch url_refused v (ws_open ws))) = 0%nat).
Proof.
  intros Hk Hres Hurl Hm Hc Hr Hne Hts.
  destruct_state w. cbn [store browser currentTask wsRetryCount wsConnection
                         sockets timeouts next_handle] in *.
  unfold isResearching in Hres. cbn [currentTask] in Hres. subst.
  cbv zeta.
  rewrite (round_reconnects _ _ _ _ _ _ _ _ _ _ _ r) by
    (assumption || (unfold MAX_WS_RETRIES; lia)).
  rewrite (round_reconnects _ _ _ _ _ _ _ _ _ _ _ CONNECTING) by
    (assumption || discriminate || apply connecting_after_insert
     || (unfold MAX_WS_RETRIES; lia)).
  rewrite (round_reconnects _ _ _ _ _ _ _ _ _ _ _ CONNECTING) by
    (assumption || discriminate || apply connecting_after_insert
     || (unfold MAX_WS_RETRIES; lia)).
  rewrite (last_drop_gives_up _ _ _ _ _ _ _ _ _ _ _ CONNECTING) by
    (discriminate || apply connecting_after_insert).
  repeat split.
  intros v ws Ho. unfold dispatch. rewrite Ho.
  destruct_state v. reflexivity.
Qed.

End Reconnect.

Lemma C6_reconnect_bounded_witness :
  let w := Sample.tracking in
  let w4 := connection_drops Sample.no_url_refused
              (round Sample.no_url_refused
                 (round Sample.no_url_refused
                    (round Sample.no_url_refused w))) in
  (isResearching (store w) = true /\ wsRetryCount (store w) = 0%nat /\
   wsConnection (store w) = Some 2%positive) /\
  wsRetryCount (store w4) = MAX_WS_RETRIES /\
  wsConnection (store w4) = None /\
  timeouts (browser w4) = ∅.
Proof.
  split; [repeat split|].
  apply (C6_reconnect_bounded Sample.no_url_refused Sample.tracking
           (Sample.task "running" 5) 2%positive OPEN
           eq_refl eq_refl eq_refl eq_refl eq_refl eq_refl
           ltac:(discriminate) eq_refl).
Defined.

(** ** One transport of each kind *)

Lemma live_after_insert
    (sk : gmap handle WebSocket) (n ws : handle) (s : WebSocket) :
  (forall h, match sk !! h with Some s => live s | None => false end = false) ->
  match <[n := s]> sk !! ws with Some s => live s | None => false end = true ->
  Some n = Some ws.
Proof.
  intros Hd H. destruct (decide (n = ws)) as [->|Hne]; [reflexivity|].
  rewrite lookup_insert_ne, Hd in H by assumption. discriminate.
Qed.

Lemma running_after_insert
    (iv : gmap handle string) (n timer : handle) (taskId : string) :
  (forall t, bool_decide (is_Some (iv !! t)) = false) ->
  bool_decide (is_Some (<[n := taskId]> iv !! timer)) = true ->
  Some n = Some timer.
Proof.
  intros Hd H. destruct (decide (n = timer)) as [->|Hne]; [reflexivity|].
  rewrite lookup_insert_ne, Hd in H by assumption. discriminate.
Qed.

Ltac one_transport Hs Hi :=
  repeat split; intros ? ?;
  first [ now apply Hs
        | now apply Hi
        | eapply live_after_insert; [|eassumption];
          first [ now apply sockets_down_after_close
                | now apply sockets_down_unheld ]
        | eapply running_after_insert; [|eassumption];
          first [ now apply intervals_down_after_clear
                | now apply intervals_down_unheld ]
        | exfalso;
          match goal with
          | H : _ = true |- _ =>
              first [ rewrite sockets_down_after_close in H by assumption
                    | rewrite sockets_down_unheld in H by assumption
                    | rewrite intervals_down_after_clear in H by assumption
                    | rewrite intervals_down_unheld in H by assumption ];
              discriminate H
          end ].

Section Ownership.

Variable url_refused : string -> bool.

(** The operations of the store keep the channels owned: each closes or
    clears what it held before it replaces or drops it. *)
Lemma calls_keep_channels_owned (w : World) (c : Call) :
  owned w -> owned (dispatch url_refused w (called c)).
Proof.
  intros [Hs Hi]. unfold owned, push_owned, polling_owned, socket_live, interval_running in *.
  destruct_state w. js_unfold_in Hs. js_unfold_in Hi.
  destruct c; unfold dispatch; js_unfold.
  - one_transport Hs Hi.
  - destruct (url_refused taskId); js_eval; one_transport Hs Hi.
  - destruct (url_refused taskId); js_eval; one_transport Hs Hi.
  - js_eval; one_transport Hs Hi.
  - one_transport Hs Hi.
  - js_eval; one_transport Hs Hi.
Qed.

End Ownership.

Ltac one_interval Hi :=
  intros ? ?;
  first [ now apply Hi
        | eapply running_after_insert; [|eassumption];
          first [ now apply intervals_down_after_clear
                | now apply intervals_down_unheld ]
        | exfalso;
          match goal with
          | H : _ = true |- _ =>
              first [ rewrite intervals_down_after_clear in H by assumption
                    | rewrite intervals_down_unheld in H by assumption ];
              discriminate H
          end ].

Section Polling.

Variable url_refused : string -> bool.

(** No event whatsoever leaves a second interval running. *)
Lemma events_keep_polling_owned (w : World) (ev : Event) :
  polling_owned w -> polling_owned (dispatch url_refused w ev).
Proof.
  intros Hi. unfold polling_owned, interval_running in *.
  destruct_state w. js_unfold_in Hi.
  destruct ev as [ws|ws [text|data]|ws|ws|timer|timer|request [e|k]|c]; unfold dispatch; js_unfold.
  - destruct (readyState <$> _) as [[]|]; js_eval; one_interval Hi.
  - destruct (readyState <$> _) as [[]|]; js_eval; one_interval Hi.
  - destruct (readyState <$> _) as [[]|];
      [|destruct (property data "type") as [e|type] eqn:Ht;
        [|rewrite !(property_field _ _ Ht)]| | |];
      js_eval; one_interval Hi.
  - destruct (readyState <$> _) as [[]|]; js_eval; one_interval Hi.
  - destruct (readyState <$> _) as [[]|]; js_unfold;
      try destruct (_ && _); js_eval; one_interval Hi.
  - destruct (_ !! timer); js_eval; one_interval Hi.
  - destruct (bool_decide _); js_unfold; [|one_interval Hi].
    destruct currentTask0 as [k|]; js_unfold; [|one_interval Hi].
    destruct (researching _); js_unfold; [|one_interval Hi].
    destruct wsConnection0; js_unfold;
      destruct (url_refused _); js_eval; one_interval Hi.
  - destruct (_ !! request) as [[]|]; js_eval; one_interval Hi.
  - destruct (_ !! request) as [[]|]; js_eval; one_interval Hi.
  - destruct c; js_unfold; try destruct (url_refused _); js_eval; one_interval Hi.
Qed.

Lemma traces_keep_polling_owned (events : list Event) (w : World) :
  polling_owned w -> polling_owned (dispatch_all url_refused events w).
Proof.
  revert w. induction events as [|ev rest IH]; intros w Hw; [exact Hw|].
  apply IH. now apply events_keep_polling_owned.
Qed.

End Polling.

(** C10 fails on the code: the page is left while the task runs and
    mounted again within the reconnect delay.  The reconnect of the
    first socket then replaces the socket of the second mount, and the
    [close] handler of the replaced socket nulls [wsConnection] while
    its successor (socket 8) is live and schedules one more reconnect,
    which opens socket 10 without closing socket 8.  The trace starts
    with one live socket, held by the store, and ends with two push
    connections live at once, of which the store holds one; the polling
    side still has its single interval. *)
Theorem C10_two_push_connections_live :
  let w := dispatch_all Sample.no_url_refused Sample.leave_and_return
             Sample.tracking in
  live_sockets Sample.tracking = [2%positive] /\
  live_sockets w = [10%positive; 8%positive] /\
  socket_live w 8%positive = true /\
  socket_live w 10%positive = true /\
  wsConnection (store w) = Some 10%positive /\
  ~ push_owned w /\
  polling_owned w.
Proof.
  cbv zeta. repeat split; try (vm_compute; reflexivity).
  - intros Hs. specialize (Hs 8%positive). vm_compute in Hs.
    specialize (Hs eq_refl). discriminate.
  - apply (traces_keep_polling_owned Sample.no_url_refused).
    apply tracking_owned.
Qed.

(** * Further properties of the code *)

(** ** Tokens and interceptors *)

(** X1: a token that is stored is read back, and leaves every other key
    of the storage as it was; it authenticates exactly when it is not
    the empty string. *)
Theorem setToken_getToken (token : string) (storage : gmap string string) :
  Auth.getToken (Auth.setToken token storage) = Some token /\
  (forall key, key <> Auth.TOKEN_KEY ->
               Auth.setToken token storage !! key = storage !! key) /\
  (Auth.isAuthenticated (Auth.setToken token storage) = true <-> token <> "").
Proof.
  unfold Auth.isAuthenticated, Auth.getToken, Auth.setToken.
  rewrite lookup_insert_eq. repeat split.
  - intros key Hk. now rewrite lookup_insert_ne.
  - intros H ->. discriminate H.
  - intros H. apply negb_true_iff. now apply String.eqb_neq.
Qed.

Lemma removeToken_lookup (storage : gmap string string) :
  Auth.removeToken storage !! Auth.TOKEN_KEY = None /\
  Auth.removeToken storage !! Auth.USER_KEY = None.
Proof.
  unfold Auth.removeToken.
  rewrite lookup_delete_ne, !lookup_delete_eq by discriminate.
  split; reflexivity.
Qed.

(** X2: [removeToken] logs out whatever was stored: no token is read,
    [isAuthenticated] is false, the stored user is gone as well, and
    every other key is untouched; removing twice is removing once. *)
Theorem removeToken_logs_out (storage : gmap string string) :
  let cleared := Auth.removeToken storage in
  Auth.getToken cleared = None /\
  Auth.isAuthenticated cleared = false /\
  cleared !! Auth.USER_KEY = None /\
  (forall key, key <> Auth.TOKEN_KEY -> key <> Auth.USER_KEY ->
               cleared !! key = storage !! key) /\
  Auth.removeToken cleared = cleared.
Proof.
  cbv zeta. destruct (removeToken_lookup storage) as [Ht Hu].
  unfold Auth.isAuthenticated, Auth.getToken. rewrite Ht.
  repeat split; try assumption.
  - intros key H1 H2. unfold Auth.removeToken.
    now rewrite !lookup_delete_ne by congruence.
  - unfold Auth.removeToken at 1.
    rewrite (delete_id _ Auth.TOKEN_KEY) by assumption.
    now apply delete_id.
Qed.

(** X3: the request interceptor writes [Authorization: Bearer token]
    exactly when the storage authenticates, and touches no other
    header; without a token the headers go out as they came, a previous
    [Authorization] header included. *)
Theorem with_authorization_spec
    (storage headers : gmap string string) :
  (forall key, key <> "Authorization" ->
               Auth.with_authorization storage headers !! key = headers !! key) /\
  (Auth.isAuthenticated storage = false ->
   Auth.with_authorization storage headers = headers) /\
  (Auth.isAuthenticated storage = true ->
   exists token,
     Auth.getToken storage = Some token /\
     Auth.with_authorization storage headers !! "Authorization"
     = Some ("Bearer " +:+ token)).
Proof.
  unfold Auth.isAuthenticated, Auth.with_authorization.
  destruct (Auth.getToken storage) as [token|].
  - destruct (negb (String.eqb token "")); repeat split; try discriminate.
    + intros key Hk. now rewrite lookup_insert_ne.
    + intros _. exists token. now rewrite lookup_insert_eq.
  - repeat split; discriminate.
Qed.

(** X4: the response interceptor always rejects with the error it
    received.  On status 401 it removes token and user and sends the
    page to [/login]; on any other error, one without a response
    included, it leaves storage and location alone. *)
Theorem on_rejected_spec (err : Auth.RequestError) (p : Auth.Page) :
  snd (Auth.on_rejected err p) = err /\
  (Auth.response_status err = Some 401 ->
   Auth.isAuthenticated (Auth.localStorage (fst (Auth.on_rejected err p))) = false /\
   Auth.localStorage (fst (Auth.on_rejected err p)) !! Auth.USER_KEY = None /\
   Auth.location_href (fst (Auth.on_rejected err p)) = "/login") /\
  (Auth.response_status err <> Some 401 ->
   fst (Auth.on_rejected err p) = p).
Proof.
  unfold Auth.on_rejected.
  destruct (Auth.response_status err) as [[|code|code]|] eqn:E;
    try (repeat split; (discriminate || congruence)).
  destruct (decide (code = 401%positive)) as [->|Hne].
  - destruct (removeToken_lookup (Auth.localStorage p)) as [Ht Hu].
    cbn [fst snd Auth.localStorage Auth.location_href].
    unfold Auth.isAuthenticated, Auth.getToken. rewrite Ht.
    repeat split; try assumption. intros H. congruence.
  - assert (Z.pos code <> 401) by congruence.
    replace (match code with 401%positive => _ | _ => (p, err) end)
      with (p, err).
    + repeat split; congruence.
    + do 9 (destruct code as [code|code|]; try reflexivity); congruence.
Qed.

(** ** The router guard *)

Lemma route_cases (r : Router.RouteRecord) :
  In r Router.routes ->
  (Router.name r = Router.Login /\
   Router.meta r = Router.mkRouteMeta None (Some true)) \/
  (Router.name r <> Router.Login /\
   Router.meta r = Router.mkRouteMeta (Some true) None).
Proof.
  unfold Router.routes. simpl.
  intros [<-|[<-|[<-|[<-|[<-|[<-|[]]]]]]]; simpl;
    (left; split; [reflexivity|reflexivity])
    || (right; split; [discriminate|reflexivity]).
Qed.

(** X5: the decision of the guard for every route of the table.
    Without a token, every route but the login page is redirected to
    the login page with the full path of the target as [redirect]
    query, and the login page is let through; with a token, the login
    page is redirected home and every other route is let through.  A
    location that matches no route is always let through. *)
Theorem beforeEach_decides
    (storage : gmap string string) (r : Router.RouteRecord) (full : string) :
  In r Router.routes ->
  Router.beforeEach storage (Router.located r full)
  = (if Auth.isAuthenticated storage
     then if Router.RouteName_eqb (Router.name r) Router.Login
          then Router.go_to Router.Home None
          else Router.proceed
     else if Router.RouteName_eqb (Router.name r) Router.Login
          then Router.proceed
          else Router.go_to Router.Login (Some full)) /\
  Router.beforeEach storage (Router.unmatched full) = Router.proceed.
Proof.
  intros Hr. unfold Router.beforeEach, Router.located, Router.unmatched.
  cbn [Router.to_meta Router.fullPath Router.requiresAuth Router.guest
       Router.flag default andb].
  destruct (route_cases r Hr) as [[Hn ->]|[Hn ->]];
    cbn [Router.requiresAuth Router.guest Router.flag default andb negb].
  - rewrite Hn. destruct (Auth.isAuthenticated storage); split; reflexivity.
  - destruct (Router.name r); try congruence;
      destruct (Auth.isAuthenticated storage); split; reflexivity.
Qed.

Lemma beforeEach_decides_witness :
  In (Router.mkRouteRecord "/history" Router.History
        (Router.mkRouteMeta (Some true) None)) Router.routes /\
  Router.beforeEach ∅
    (Router.located
       (Router.mkRouteRecord "/history" Router.History
          (Router.mkRouteMeta (Some true) None))
       "/history?tab=2")
  = Router.go_to Router.Login (Some "/history?tab=2").
Proof.
  assert (In (Router.mkRouteRecord "/history" Router.History
                (Router.mkRouteMeta (Some true) None)) Router.routes) as H
    by (simpl; tauto).
  split; [exact H|].
  exact (proj1 (beforeEach_decides ∅ _ "/history?tab=2" H)).
Defined.

(** X6: the guard never redirects in a circle: whatever the storage
    and the target, when the guard redirects to a named route, that
    route exists in the table and a navigation to it is let through
    under the same storage. *)
Theorem beforeEach_redirect_settles
    (storage : gmap string string) (to : Router.RouteLocation)
    (target : Router.RouteName) (redirect : option string) :
  Router.beforeEach storage to = Router.go_to target redirect ->
  exists r,
    Router.named target = Some r /\
    In r Router.routes /\
    forall full,
      Router.beforeEach storage (Router.located r full) = Router.proceed.
Proof.
  unfold Router.beforeEach.
  destruct (Auth.isAuthenticated storage) eqn:Ha;
    destruct (Router.flag (Router.requiresAuth (Router.to_meta to)));
    destruct (Router.flag (Router.guest (Router.to_meta to)));
    cbn [andb negb]; intros [= <- <-] || intros [=].
  1-2: exists (Router.mkRouteRecord "/" Router.Home
                 (Router.mkRouteMeta (Some true) None)).
  3-4: exists (Router.mkRouteRecord "/login" Router.Login
                 (Router.mkRouteMeta None (Some true))).
  all: split; [reflexivity|split; [simpl; tauto|]];
    intros full; unfold Router.located;
    cbn [Router.to_meta Router.meta Router.requiresAuth Router.guest
         Router.flag default andb negb];
    reflexivity.
Qed.

Lemma beforeEach_redirect_settles_witness :
  Router.beforeEach Sample2.storage
    (Router.located
       (Router.mkRouteRecord "/login" Router.Login
          (Router.mkRouteMeta None (Some true))) "/login")
  = Router.go_to Router.Home None /\
  exists r,
    Router.named Router.Home = Some r /\
    In r Router.routes /\
    forall full,
      Router.beforeEach Sample2.storage (Router.located r full)
      = Router.proceed.
Proof.
  split; [reflexivity|].
  apply (beforeEach_redirect_settles Sample2.storage
           (Router.located
              (Router.mkRouteRecord "/login" Router.Login
                 (Router.mkRouteMeta None (Some true))) "/login")
           Router.Home None).
  reflexivity.
Defined.

(** X7: after the response interceptor has handled a 401, the guard
    sends every route of the table but the login page to the login
    page, whatever was stored before. *)
Theorem unauthorized_then_guarded
    (err : Auth.RequestError) (p : Auth.Page)
    (r : Router.RouteRecord) (full : string) :
  Auth.response_status err = Some 401 ->
  In r Router.routes ->
  Router.name r <> Router.Login ->
  Router.beforeEach (Auth.localStorage (fst (Auth.on_rejected err p)))
    (Router.located r full)
  = Router.go_to Router.Login (Some full).
Proof.
  intros He Hr Hn. unfold Auth.on_rejected. rewrite He.
  cbn [fst Auth.localStorage].
  unfold Router.beforeEach, Auth.isAuthenticated, Auth.getToken.
  rewrite (proj1 (removeToken_lookup (Auth.localStorage p))).
  unfold Router.located. cbn [Router.to_meta Router.fullPath].
  destruct (route_cases r Hr) as [[Hn' _]|[_ ->]]; [contradiction|].
  reflexivity.
Qed.

Lemma unauthorized_then_guarded_witness :
  let err := Auth.mkRequestError (Some 401) "Unauthorized" in
  let home := Router.mkRouteRecord "/" Router.Home
                (Router.mkRouteMeta (Some true) None) in
  (Auth.response_status err = Some 401 /\ In home Router.routes /\
   Router.name home <> Router.Login) /\
  Router.beforeEach
    (Auth.localStorage
       (fst (Auth.on_rejected err (Auth.mkPage Sample2.storage "/history"))))
    (Router.located home "/")
  = Router.go_to Router.Login (Some "/").
Proof.
  intros err home.
  assert (In home Router.routes) as H by (simpl; tauto).
  assert (Router.name home <> Router.Login) as Hn by discriminate.
  split; [repeat split; assumption|].
  exact (unauthorized_then_guarded err
           (Auth.mkPage Sample2.storage "/history") home "/" eq_refl H Hn).
Defined.

(** ** The step display *)

Lemma findIndex_range {A} (test : A -> bool) (items : list A) :
  -1 <= ProgressView.findIndex test items < Z.of_nat (length items).
Proof.
  induction items as [|x rest IH]; simpl ProgressView.findIndex.
  - simpl. lia.
  - destruct (test x); [simpl length; lia|].
    destruct (ProgressView.findIndex test rest <? 0) eqn:E; simpl length; lia.
Qed.

(** X8: the step shown is always a step of the table, it is the step
    named by [currentAgent] when there is one, and it is the first step
    for every other value of [currentAgent] (the empty label of a reset
    record, a missing or unknown agent). *)
Theorem currentStepIndex_spec (shown : ResearchProgress.t) :
  0 <= ProgressView.currentStepIndex shown
    < Z.of_nat (length ProgressView.agentSteps) /\
  (forall i step,
     nth_error ProgressView.agentSteps i = Some step ->
     ResearchProgress.currentAgent shown = JsStr (ProgressView.step_name step) ->
     ProgressView.currentStepIndex shown = Z.of_nat i) /\
  ((forall step, In step ProgressView.agentSteps ->
                 ResearchProgress.currentAgent shown
                 <> JsStr (ProgressView.step_name step)) ->
   ProgressView.currentStepIndex shown = 0).
Proof.
  unfold ProgressView.currentStepIndex. cbv zeta.
  set (test := fun s => is_str (ResearchProgress.currentAgent shown)
                               (ProgressView.step_name s)).
  split; [|split].
  - pose proof (findIndex_range test ProgressView.agentSteps).
    destruct (ProgressView.findIndex test ProgressView.agentSteps >=? 0) eqn:E;
      simpl length in *; lia.
  - intros i step Hi Hs. unfold test. rewrite Hs.
    do 4 (destruct i as [|i];
          [simpl in Hi; injection Hi as <-; reflexivity|]).
    destruct i; discriminate.
  - intros Hnone.
    assert (forall step, In step ProgressView.agentSteps -> test step = false)
      as Hf.
    { intros step Hin. specialize (Hnone step Hin). unfold test, is_str.
      destruct (ResearchProgress.currentAgent shown); try reflexivity.
      apply String.eqb_neq. congruence. }
    simpl in Hf. simpl ProgressView.findIndex.
    rewrite !Hf by tauto. reflexivity.
Qed.

(** ** The request helpers *)

Ltac app_unfold :=
  cbv beta iota zeta delta
    [fetchTaskResult_resume with_report_data assign_progress_status
     startResearch_begin startResearch_try startResearch_resume in_world
     set_isLoading set_historyTasks set_reports fetchHistory_resume
     fetchReports_resume app_world isLoading historyTasks reports
     result_report task_id];
  js_unfold.

(** X9: [fetchTaskResult] returns the report of the answer.  It stores
    the report in the held task when that task has the requested id and
    changes nothing else: every other field of the task, every other
    variable of the store and the whole browser are as they were.  When
    no task is held or the held task has another id, the world is left
    exactly as it was. *)
Theorem fetchTaskResult_attaches_report
    (taskId : string) (result : TaskResult) (w : World) :
  let out := fetchTaskResult_resume taskId (inr result) w in
  fst out = Returned (result_report result) /\
  match currentTask (store w) with
  | Some k =>
      if String.eqb (ResearchTask.id k) taskId
      then snd out
           = mkWorld
               (mkStore
                  (Some (ResearchTask.mk
                           (ResearchTask.id k) (ResearchTask.company k)
                           (ResearchTask.status k) (ResearchTask.depth k)
                           (ResearchTask.focus_areas k)
                           (ResearchTask.progress k)
                           (ResearchTask.current_agent k)
                           (ResearchTask.current_task k)
                           (ResearchTask.estimated_time k)
                           (ResearchTask.created_at k)
                           (ResearchTask.started_at k)
                           (ResearchTask.completed_at k)
                           (Some (result_report result))
                           (ResearchTask.error_message k)))
                  (progress (store w)) (wsConnection (store w))
                  (pollingTimer (store w)) (wsRetryCount (store w))
                  (error (store w)))
               (browser w) /\
           currentTask (store (snd out))
           = Some (with_report_data (Some (result_report result)) k) /\
           progress (store (snd out)) = progress (store w) /\
           browser (snd out) = browser w
      else snd out = w
  | None => snd out = w
  end.
Proof.
  destruct w as [[[k|] ? ? ? ? ?] [? ? ? ? ? ?]]; app_unfold.
  - destruct (String.eqb _ taskId); js_unfold; repeat split.
  - split; reflexivity.
Qed.

(** X10: when the result request fails, [fetchTaskResult] records the
    message in [error] and throws the error again; the held task, the
    progress record and both channels are untouched. *)
Theorem fetchTaskResult_failure_recorded
    (taskId : string) (e : JsError) (w : World) :
  let out := fetchTaskResult_resume taskId (inl e) w in
  fst out = Thrown e /\
  error (store (snd out)) = Some (message e) /\
  snapshot (snd out) = snapshot w /\
  wsConnection (store (snd out)) = wsConnection (store w) /\
  pollingTimer (store (snd out)) = pollingTimer (store w) /\
  browser (snd out) = browser w.
Proof.
  destruct_state w. app_unfold. repeat split.
Qed.

(** X11: the loading flag of [startResearch].  The function raises
    [isLoading] and clears [error] before its first request, which
    carries depth [standard] and no focus when none are given; and
    whatever the two requests answer, [isLoading] is down again when
    the function ends. *)
Theorem startResearch_loading_flag
    (url_refused : string -> bool)
    (company : string) (depth : option string) (focus : option (list string))
    (started : JsError + StartResult) (fetched : JsError + ResearchTask.t)
    (a : App) :
  let begun := startResearch_begin company depth focus a in
  isLoading (snd begun) = true /\
  error (store (app_world (snd begun))) = None /\
  snapshot (app_world (snd begun)) = snapshot (app_world a) /\
  fst begun = mkResearchRequest company (default "standard" depth)
                                (default [] focus) /\
  isLoading (snd (startResearch_resume url_refused started fetched a)) = false.
Proof.
  destruct a as [w ? ? ?]. destruct_state w. repeat split.
  unfold startResearch_resume.
  destruct (in_world _ _) as [o a']. reflexivity.
Qed.

(** X12: when either request of [startResearch] fails, the error is
    thrown again, [error] holds its message, or the fixed text when the
    message is empty, and nothing else has happened: the snapshot is as
    it was and no channel was opened or closed. *)
Theorem startResearch_failure_recorded
    (url_refused : string -> bool)
    (started : JsError + StartResult) (fetched : JsError + ResearchTask.t)
    (e : JsError) (a : App) :
  started = inl e \/ (exists r, started = inr r /\ fetched = inl e) ->
  let out := startResearch_resume url_refused started fetched a in
  fst out = Thrown e /\
  error (store (app_world (snd out)))
  = Some (if String.eqb (message e) "" then "启动研究失败" else message e) /\
  snapshot (app_world (snd out)) = snapshot (app_world a) /\
  wsConnection (store (app_world (snd out))) = wsConnection (store (app_world a)) /\
  pollingTimer (store (app_world (snd out))) = pollingTimer (store (app_world a)) /\
  browser (app_world (snd out)) = browser (app_world a).
Proof.
  destruct a as [w ? ? ?]. destruct_state w.
  intros [->|[r [-> ->]]]; app_unfold; repeat split.
Qed.

Lemma startResearch_failure_recorded_witness :
  let e := NetworkError "" in
  let out := startResearch_resume Sample.no_url_refused
               (inr (mkStartResult "t2" "started")) (inl e) Sample2.app in
  (exists r, inr (mkStartResult "t2" "started") = @inr JsError _ r /\
             @inl JsError ResearchTask.t e = inl e) /\
  fst out = Thrown e /\
  error (store (app_world (snd out))) = Some "启动研究失败".
Proof.
  intros e out.
  assert (@inr JsError _ (mkStartResult "t2" "started") = inl e \/
          exists r, @inr JsError _ (mkStartResult "t2" "started") = inr r /\
                    @inl JsError ResearchTask.t e = inl e) as H
    by (right; eexists; split; reflexivity).
  split; [eexists; split; reflexivity|].
  pose proof (startResearch_failure_recorded Sample.no_url_refused
                _ _ e Sample2.app H) as P.
  split; apply P.
Defined.



(** X14: [fetchHistory] and [fetchReports] never throw.  A failed
    request records its message in [error] and changes nothing else; an
    answer replaces the list and changes nothing else: the other list,
    the loading flag, the other variables of the store and the browser
    are as they were. *)
Theorem list_helpers_never_throw
    (history : JsError + list ResearchTask.t)
    (listed : JsError + list JsValue) (a : App) :
  let h := fetchHistory_resume history a in
  let r := fetchReports_resume listed a in
  let recorded e :=
    mkWorld
      (mkStore (currentTask (store (app_world a)))
         (progress (store (app_world a)))
         (wsConnection (store (app_world a)))
         (pollingTimer (store (app_world a)))
         (wsRetryCount (store (app_world a)))
         (Some (message e)))
      (browser (app_world a)) in
  (fst h = Returned tt /\ fst r = Returned tt) /\
  (forall e, history = inl e ->
     snd h = mkApp (recorded e) (isLoading a) (historyTasks a) (reports a)) /\
  (forall tasks, history = inr tasks ->
     snd h = mkApp (app_world a) (isLoading a) tasks (reports a)) /\
  (forall e, listed = inl e ->
     snd r = mkApp (recorded e) (isLoading a) (historyTasks a) (reports a)) /\
  (forall items, listed = inr items ->
     snd r = mkApp (app_world a) (isLoading a) (historyTasks a) items) /\
  (forall e, history = inl e ->
     historyTasks (snd h) = historyTasks a /\
     error (store (app_world (snd h))) = Some (message e)) /\
  (forall tasks, history = inr tasks ->
     historyTasks (snd h) = tasks /\ app_world (snd h) = app_world a) /\
  (forall e, listed = inl e ->
     reports (snd r) = reports a /\
     error (store (app_world (snd r))) = Some (message e)) /\
  (forall items, listed = inr items ->
     reports (snd r) = items /\ app_world (snd r) = app_world a).
Proof.
  destruct a as [w ? ? ?]. destruct_state w.
  destruct history, listed; app_unfold;
    (split; [split; reflexivity|]);
    repeat split; try discriminate; intros;
    match goal with H : _ = _ |- _ => injection H as <- end;
    repeat split.
Qed.

(** ** More on the store and its channels *)

(** X15: when the status request of [fetchTaskStatus] fails, the
    function records the message in [error] and throws the error again
    (the polling callback, in contrast, only logs): nothing is logged,
    and the snapshot and both channels are untouched. *)
Theorem fetchTaskStatus_failure_recorded
    (url_refused : string -> bool) (w : World) (request : handle) (e : JsError) :
  requests (browser w) !! request = Some by_fetchTaskStatus ->
  let w' := dispatch url_refused w (settled request (inl e)) in
  fst (fetchTaskStatus_resume (inl e) w) = Thrown e /\
  error (store w') = Some (message e) /\
  snapshot w' = snapshot w /\
  wsConnection (store w') = wsConnection (store w) /\
  pollingTimer (store w') = pollingTimer (store w) /\
  sockets (browser w') = sockets (browser w) /\
  intervals (browser w') = intervals (browser w) /\
  effects (browser w') = effects (browser w).
Proof.
  intros Hr. unfold dispatch. rewrite Hr.
  destruct_state w. js_unfold. repeat split.
Qed.

Lemma fetchTaskStatus_failure_recorded_witness :
  let w := dispatch Sample.no_url_refused Sample.tracking
             (called (call_fetchTaskStatus "t1")) in
  requests (browser w) !! 4%positive = Some by_fetchTaskStatus /\
  error (store (dispatch Sample.no_url_refused w
                  (settled 4%positive (inl (NetworkError "offline")))))
  = Some "offline".
Proof.
  split; [reflexivity|].
  apply (fetchTaskStatus_failure_recorded Sample.no_url_refused
           (dispatch Sample.no_url_refused Sample.tracking
              (called (call_fetchTaskStatus "t1")))
           4%positive (NetworkError "offline") eq_refl).
Defined.

(** X16: when the status request of [fetchTaskStatus] succeeds, the
    snapshot becomes the fetched task and the progress record read off
    it, and that is all: an earlier [error] is not cleared, and no
    channel is opened, closed or stopped, not even when the fetched
    status is [completed] or [failed]. *)
Theorem fetchTaskStatus_success
    (url_refused : string -> bool) (w : World) (request : handle)
    (task : ResearchTask.t) :
  requests (browser w) !! request = Some by_fetchTaskStatus ->
  let w' := dispatch url_refused w (settled request (inr task)) in
  snapshot w' = (Some task, frame_record (poll_frame task)) /\
  error (store w') = error (store w) /\
  wsConnection (store w') = wsConnection (store w) /\
  pollingTimer (store w') = pollingTimer (store w) /\
  wsRetryCount (store w') = wsRetryCount (store w) /\
  sockets (browser w') = sockets (browser w) /\
  intervals (browser w') = intervals (browser w) /\
  effects (browser w') = effects (browser w).
Proof.
  intros Hr. unfold dispatch. rewrite Hr.
  destruct_state w. destruct task. js_unfold. repeat split.
Qed.

Lemma fetchTaskStatus_success_witness :
  let w := dispatch Sample.no_url_refused Sample.tracking
             (called (call_fetchTaskStatus "t1")) in
  let w' := dispatch Sample.no_url_refused w
              (settled 4%positive (inr (Sample.task "completed" 100))) in
  requests (browser w) !! 4%positive = Some by_fetchTaskStatus /\
  held_status w' = JsStr "completed" /\
  wsConnection (store w') = Some 2%positive /\
  pollingTimer (store w') = Some 3%positive.
Proof.
  intros w w'.
  pose proof (fetchTaskStatus_success Sample.no_url_refused w 4%positive
                (Sample.task "completed" 100) eq_refl) as P.
  split; [reflexivity|].
  split; [exact (f_equal (fun s => ResearchProgress.status (snd s)) (proj1 P))|].
  split; apply P.
Defined.

(** X17: [connectWebSocket] never throws.  When the constructor refuses
    the URL, the failure is logged; the connection held before has
    been closed all the same and [wsConnection] still refers to it, so
    the store is left holding a socket that is not live (or none); the
    snapshot and the polling timer are untouched. *)
Theorem connectWebSocket_refused
    (url_refused : string -> bool) (taskId : string) (w : World) :
  url_refused taskId = true ->
  let w' := run (connectWebSocket url_refused taskId) w in
  fst (connectWebSocket url_refused taskId w) = Returned tt /\
  wsConnection (store w') = wsConnection (store w) /\
  (forall c, wsConnection (store w') = Some c -> socket_live w' c = false) /\
  effects (browser w')
  = (console_error "[WS] 创建连接失败:" (Some (SyntaxError taskId))
     :: match wsConnection (store w) with
        | Some c => [WebSocket_close c]
        | None => []
        end ++ effects (browser w))%list /\
  snapshot w' = snapshot w /\
  pollingTimer (store w') = pollingTimer (store w) /\
  intervals (browser w') = intervals (browser w).
Proof.
  intros Hurl. unfold socket_live. destruct_state w.
  js_unfold. rewrite Hurl. js_eval; repeat split; try discriminate.
  intros c [= <-]. apply closed_socket_not_live.
Qed.

Lemma connectWebSocket_refused_witness :
  let refuse_t9 := String.eqb "t9" in
  let w' := run (connectWebSocket refuse_t9 "t9") Sample.tracking in
  refuse_t9 "t9" = true /\
  wsConnection (store w') = Some 2%positive /\
  socket_live w' 2%positive = false.
Proof.
  intros refuse_t9 w'.
  pose proof (connectWebSocket_refused refuse_t9 "t9" Sample.tracking eq_refl)
    as P.
  split; [reflexivity|]. split; [apply P|].
  apply P. reflexivity.
Defined.

(** X18: a push message that parses to [null] (or is [undefined]) is
    dropped like an unparseable one: reading its [type] throws inside
    the [try], the failure is logged, and the store is unchanged. *)
Theorem ws_onmessage_null_dropped (data : JsValue) (w : World) :
  data = JsNull \/ data = JsUndefined ->
  let w' := run (ws_onmessage (Json data)) w in
  store w' = store w /\
  effects (browser w')
  = console_error "[WS] 解析消息失败:" (Some (TypeError "type"))
      :: effects (browser w).
Proof.
  destruct_state w. intros [->| ->]; js_unfold; split; reflexivity.
Qed.

Lemma ws_onmessage_null_dropped_witness :
  (JsNull = JsNull \/ JsNull = JsUndefined) /\
  store (run (ws_onmessage (Json JsNull)) Sample.tracking)
  = store Sample.tracking.
Proof.
  split; [left; reflexivity|].
  apply (ws_onmessage_null_dropped JsNull Sample.tracking).
  left; reflexivity.
Defined.

(** X19: the push channel never retargets the tracked task.  Whatever
    a message carries, the task held afterwards has the id, company,
    depth, focus areas, estimated time, timestamps, report and error
    message of the task held before, and no task is created when none
    was held. *)
Theorem ws_onmessage_keeps_task_identity (event_data : MessageData) (w : World) :
  let w' := run (ws_onmessage event_data) w in
  match currentTask (store w) with
  | None => currentTask (store w') = None
  | Some k =>
      exists k',
        currentTask (store w') = Some k' /\
        ResearchTask.id k' = ResearchTask.id k /\
        ResearchTask.company k' = ResearchTask.company k /\
        ResearchTask.depth k' = ResearchTask.depth k /\
        ResearchTask.focus_areas k' = ResearchTask.focus_areas k /\
        ResearchTask.estimated_time k' = ResearchTask.estimated_time k /\
        ResearchTask.created_at k' = ResearchTask.created_at k /\
        ResearchTask.started_at k' = ResearchTask.started_at k /\
        ResearchTask.completed_at k' = ResearchTask.completed_at k /\
        ResearchTask.report_data k' = ResearchTask.report_data k /\
        ResearchTask.error_message k' = ResearchTask.error_message k
  end.
Proof.
  destruct event_data as [text|data].
  - destruct_world w; js_unfold; [eexists; repeat split|reflexivity].
  - destruct (property data "type") as [e|type] eqn:Ht.
    + destruct_world w; js_unfold; rewrite Ht; js_unfold;
        [eexists; repeat split|reflexivity].
    + pose proof (property_field _ _ Ht) as Hp.
      destruct_world w; js_unfold; rewrite !Hp; js_eval;
        try reflexivity; eexists; repeat split.
Qed.

(** X20: a reconnect timeout that fires when the task is no longer
    pending or running (it ended, or tracking was cleaned up) opens
    nothing: the store, the sockets and the log are as they were. *)
Theorem reconnect_cancelled_when_not_researching
    (url_refused : string -> bool) (w : World) (timer : handle) :
  isResearching (store w) = false ->
  let w' := dispatch url_refused w (timeout_fired timer) in
  store w' = store w /\
  sockets (browser w') = sockets (browser w) /\
  intervals (browser w') = intervals (browser w) /\
  effects (browser w') = effects (browser w).
Proof.
  intros Hr. unfold dispatch.
  destruct (bool_decide _); [|repeat split].
  destruct_state w. js_unfold_in Hr. js_unfold. rewrite Hr.
  js_eval; repeat split.
Qed.

Lemma reconnect_cancelled_when_not_researching_witness :
  let w := dispatch_all Sample.no_url_refused
             [ws_closed 2%positive;
              settled 4%positive (inr (Sample.task "completed" 100))]
             Sample.poll_in_flight in
  isResearching (store w) = false /\
  timeouts (browser w) = {[5%positive]} /\
  sockets (browser (dispatch Sample.no_url_refused w (timeout_fired 5%positive)))
  = sockets (browser w).
Proof.
  intros w.
  pose proof (reconnect_cancelled_when_not_researching Sample.no_url_refused
                w 5%positive eq_refl) as P.
  split; [reflexivity|]. split; [reflexivity|apply P].
Defined.

(** ** Invariants of the event loop *)

Section Invariants.

Variable url_refused : string -> bool.

Lemma events_keep_retry_bound (w : World) (ev : Event) :
  (wsRetryCount (store w) <= MAX_WS_RETRIES)%nat ->
  (wsRetryCount (store (dispatch url_refused w ev)) <= MAX_WS_RETRIES)%nat.
Proof.
  intros Hb. destruct_state w. js_unfold_in Hb.
  destruct ev as [ws|ws [text|data]|ws|ws|timer|timer|request [e|k]|c];
    unfold dispatch; js_unfold.
  - destruct (readyState <$> _) as [[]|]; js_eval;
      first [assumption | unfold MAX_WS_RETRIES; lia].
  - destruct (readyState <$> _) as [[]|]; js_eval; assumption.
  - destruct (readyState <$> _) as [[]|];
      [|destruct (property data "type") as [e|type] eqn:Ht;
        [|rewrite !(property_field _ _ Ht)]| | |];
      js_eval; assumption.
  - destruct (readyState <$> _) as [[]|]; js_eval; assumption.
  - destruct (readyState <$> _) as [[]|]; js_unfold; try assumption;
      (destruct (_ <? _)%nat eqn:E; cbn [andb]; js_unfold; [|assumption];
       destruct (researching _); js_unfold; [|assumption];
       apply Nat.ltb_lt in E; lia).
  - destruct (_ !! timer); js_eval; assumption.
  - destruct (bool_decide _); js_unfold; [|assumption].
    destruct currentTask0 as [k|]; js_unfold; [|assumption].
    destruct (researching _); js_unfold; [|assumption].
    destruct wsConnection0; js_unfold;
      destruct (url_refused _); js_eval; assumption.
  - destruct (_ !! request) as [[]|]; js_eval; assumption.
  - destruct (_ !! request) as [[]|]; js_eval; assumption.
  - destruct c; js_unfold; try destruct (url_refused _); js_eval;
      first [assumption | unfold MAX_WS_RETRIES; lia].
Qed.

(** X21: the retry count never exceeds the maximum: in every world the
    event loop can reach from the initial one, whatever events arrive
    in whatever order, [wsRetryCount] is at most [MAX_WS_RETRIES]. *)
Theorem retry_count_bounded (events : list Event) :
  (wsRetryCount (store (dispatch_all url_refused events initial_world))
   <= MAX_WS_RETRIES)%nat.
Proof.
  unfold dispatch_all.
  assert (wsRetryCount (store initial_world) <= MAX_WS_RETRIES)%nat as H
    by (unfold MAX_WS_RETRIES; simpl; lia).
  revert H. generalize initial_world.
  induction events as [|ev rest IH]; intros w Hw; [exact Hw|].
  simpl. apply IH. now apply events_keep_retry_bound.
Qed.

(** X22: at most one polling interval runs at any time: in every world
    the event loop can reach from the initial one, two running
    intervals are the same interval, and it is the one the store holds
    in [pollingTimer]. *)
Theorem single_polling_interval (events : list Event) (t1 t2 : handle) :
  let w := dispatch_all url_refused events initial_world in
  interval_running w t1 = true ->
  interval_running w t2 = true ->
  t1 = t2 /\ pollingTimer (store w) = Some t1.
Proof.
  intros w H1 H2.
  assert (polling_owned w) as Ho.
  { apply traces_keep_polling_owned. intros t Ht.
    unfold interval_running in Ht. simpl in Ht.
    rewrite lookup_empty in Ht. apply bool_decide_eq_true in Ht.
    now destruct Ht. }
  pose proof (Ho t1 H1) as E1. pose proof (Ho t2 H2) as E2.
  split; [congruence|assumption].
Qed.

End Invariants.

Lemma single_polling_interval_witness :
  let events := [called (call_fetchTaskStatus "t1");
                 settled 1%positive (inr (Sample.task "running" 5));
                 called (call_startStatusSync "t1");
                 called (call_startStatusSync "t1")] in
  let w := dispatch_all Sample.no_url_refused events initial_world in
  interval_running w 5%positive = true /\
  pollingTimer (store w) = Some 5%positive.
Proof.
  intros events w. split; [reflexivity|].
  apply (single_polling_interval Sample.no_url_refused events
           5%positive 5%positive eq_refl eq_refl).
Defined.

(** ** Ownership of the channels *)

Lemma live_after_open (sk : gmap handle WebSocket) (ws h : handle) :
  readyState <$> sk !! ws = Some CONNECTING ->
  match alter (with_readyState OPEN) ws sk !! h with
  | Some s => live s
  | None => false
  end
  = match sk !! h with Some s => live s | None => false end.
Proof.
  intros Hc. destruct (decide (ws = h)) as [->|Hne].
  - rewrite lookup_alter_eq. destruct (sk !! h) as [[tid r]|]; [|reflexivity].
    simpl in Hc. injection Hc as ->. reflexivity.
  - now rewrite lookup_alter_ne.
Qed.

Lemma live_after_closed (sk : gmap handle WebSocket) (ws h : handle) :
  match alter (with_readyState CLOSED) ws sk !! h with
  | Some s => live s
  | None => false
  end = true ->
  h <> ws /\ match sk !! h with Some s => live s | None => false end = true.
Proof.
  destruct (decide (ws = h)) as [->|Hne].
  - rewrite lookup_alter_eq. destruct (sk !! h); discriminate.
  - rewrite lookup_alter_ne by assumption. intros H. split; congruence.
Qed.

Section Ownership2.

Variable url_refused : string -> bool.

(** X23: the store keeps owning its channels under every event but
    one.  If every live socket is the one in [wsConnection] and every
    running interval is the one in [pollingTimer], the same holds after
    any call of the store, any message, open or error event, any timer
    and any settled request; and after the close event of a socket,
    provided the store holds that socket or none.  (The close event of
    a socket the store has already replaced is the exception.) *)
Theorem events_keep_channels_owned (w : World) (ev : Event) :
  owned w ->
  (forall ws, ev = ws_closed ws ->
     wsConnection (store w) = Some ws \/ wsConnection (store w) = None) ->
  owned (dispatch url_refused w ev).
Proof.
  intros Ho Hc.
  destruct ev as [ws|ws [text|data]|ws|ws|timer|timer|request [e|k]|c];
    try (now apply calls_keep_channels_owned).
  all: destruct Ho as [Hs Hi];
    unfold owned, push_owned, polling_owned, socket_live, interval_running in *;
    destruct_state w; js_unfold_in Hs; js_unfold_in Hi;
    unfold dispatch; js_unfold.
  - destruct (readyState <$> _) as [[]|] eqn:E; js_eval;
      try (split; assumption).
    split; [|assumption]. intros h. rewrite (live_after_open _ _ _ E).
    apply Hs.
  - destruct (readyState <$> _) as [[]|]; js_eval; split; assumption.
  - destruct (readyState <$> _) as [[]|];
      [|destruct (property data "type") as [e|type] eqn:Ht;
        [|rewrite !(property_field _ _ Ht)]| | |];
      js_eval; one_transport Hs Hi.
  - destruct (readyState <$> _) as [[]|]; js_eval; split; assumption.
  - js_unfold_in Hc. specialize (Hc ws eq_refl).
    assert (forall h,
              match alter (with_readyState CLOSED) ws sockets0 !! h with
              | Some s => live s
              | None => false
              end = true -> @None handle = Some h) as Hdown.
    { intros h [Hne Hl]%live_after_closed. apply Hs in Hl.
      destruct Hc as [Hc|Hc]; congruence. }
    destruct (readyState <$> _) as [[]|]; js_unfold;
      try (split; assumption);
      destruct (_ && _); js_unfold; split; assumption.
  - destruct (_ !! timer); js_eval; split; assumption.
  - destruct (bool_decide _); js_unfold; [|split; assumption].
    destruct currentTask0 as [k|]; js_unfold; [|split; assumption].
    destruct (researching _); js_unfold; [|split; assumption].
    destruct wsConnection0; js_unfold;
      destruct (url_refused _); js_eval; one_transport Hs Hi.
  - destruct (_ !! request) as [[]|]; js_eval; split; assumption.
  - destruct (_ !! request) as [[]|]; js_eval; one_transport Hs Hi.
Qed.

End Ownership2.

Lemma events_keep_channels_owned_witness :
  (owned Sample.tracking /\
   forall ws, ws_closed 2%positive = ws_closed ws ->
     wsConnection (store Sample.tracking) = Some ws \/
     wsConnection (store Sample.tracking) = None) /\
  owned (dispatch Sample.no_url_refused Sample.tracking (ws_closed 2%positive)).
Proof.
  assert (forall ws, ws_closed 2%positive = ws_closed ws ->
            wsConnection (store Sample.tracking) = Some ws \/
            wsConnection (store Sample.tracking) = None) as H
    by (intros ws [= <-]; left; reflexivity).
  split; [split; [exact tracking_owned|exact H]|].
  exact (events_keep_channels_owned Sample.no_url_refused Sample.tracking
           (ws_closed 2%positive) tracking_owned H).
Defined.

(** ** Starting and stopping synchronisation *)

Section StartStop.

Variable url_refused : string -> bool.

(** X24: [startStatusSync] leaves exactly one transport of each kind.
    From a store that owns its channels and with an accepted URL, the
    retry count is zero, the only live socket is the new one, connecting
    for the task and held in [wsConnection], and the only running
    interval is the new one, polling the task and held in
    [pollingTimer]; the snapshot is untouched. *)
Theorem startStatusSync_one_of_each (taskId : string) (w : World) :
  owned w ->
  url_refused taskId = false ->
  let n := next_handle (browser w) in
  let w' := run (startStatusSync url_refused taskId) w in
  wsRetryCount (store w') = 0%nat /\
  wsConnection (store w') = Some n /\
  sockets (browser w') !! n = Some (mkWebSocket taskId CONNECTING) /\
  pollingTimer (store w') = Some (Pos.succ n) /\
  intervals (browser w') !! Pos.succ n = Some taskId /\
  (forall ws, socket_live w' ws = true <-> ws = n) /\
  (forall timer, interval_running w' timer = true <-> timer = Pos.succ n) /\
  snapshot w' = snapshot w.
Proof.
  intros [Hs Hi] Hurl.
  unfold push_owned, polling_owned, socket_live, interval_running in *.
  destruct_state w. js_unfold_in Hs. js_unfold_in Hi.
  js_unfold. rewrite Hurl. js_eval.
  all: repeat split; try (now rewrite lookup_insert_eq).
  all: try (intros ->; rewrite lookup_insert_eq; try reflexivity;
            apply bool_decide_eq_true; eauto).
  all: intros H;
    match goal with
    | |- ?x = ?y => enough (Some y = Some x) as E by (injection E; auto)
    end.
  all: first
    [ eapply live_after_insert; [|exact H];
      first [ now apply sockets_down_after_close
            | now apply sockets_down_unheld ]
    | eapply running_after_insert; [|exact H];
      first [ now apply intervals_down_after_clear
            | now apply intervals_down_unheld ] ].
Qed.

(** X25: [stopStatusSync] alone does not end push tracking of a task
    that is still pending or running.  The close event of the socket it
    closed finds the task researching, schedules a reconnect, and when
    the delay has passed a new socket is opened and held, while polling
    stays off. *)
Theorem stopStatusSync_then_reconnect
    (w : World) (k : ResearchTask.t) (c : handle) :
  currentTask (store w) = Some k ->
  isResearching (store w) = true ->
  url_refused (ResearchTask.id k) = false ->
  (wsRetryCount (store w) < MAX_WS_RETRIES)%nat ->
  wsConnection (store w) = Some c ->
  socket_live w c = true ->
  let n := next_handle (browser w) in
  let w' := dispatch_all url_refused
              [called call_stopStatusSync; ws_closed c; timeout_fired n] w in
  wsConnection (store w') = Some (Pos.succ n) /\
  socket_live w' (Pos.succ n) = true /\
  pollingTimer (store w') = None /\
  wsRetryCount (store w') = S (wsRetryCount (store w)).
Proof.
  intros Hk Hres Hurl Hm Hc Hl. apply Nat.ltb_lt in Hm.
  unfold socket_live in *. destruct_state w.
  js_unfold_in Hk. js_unfold_in Hres. js_unfold_in Hurl. js_unfold_in Hm.
  js_unfold_in Hc. js_unfold_in Hl. subst.
  destruct (sockets0 !! c) as [[tid r]|] eqn:Es; [|discriminate].
  assert (readyState <$>
            alter (fun s => if live s then with_readyState CLOSING s else s)
              c sockets0 !! c = Some CLOSING) as Hclosing.
  { rewrite lookup_alter_eq, Es. destruct r; try discriminate; reflexivity. }
  unfold dispatch_all. cbn [fold_left].
  match goal with
  | |- context [dispatch ?u ?v (called ?call)] =>
      remember (dispatch u v (called call)) as w1 eqn:E1
  end.
  unfold dispatch in E1. js_unfold_in E1.
  destruct pollingTimer0 as [t|]; js_unfold_in E1; subst w1.
  all: match goal with
    | |- context [dispatch ?u ?v (ws_closed ?ws)] =>
        remember (dispatch u v (ws_closed ws)) as w2 eqn:E2
    end;
    unfold dispatch in E2; js_unfold_in E2; rewrite Hclosing in E2;
    js_unfold_in E2; rewrite Hm, Hres in E2; cbn [andb] in E2;
    js_unfold_in E2; subst w2;
    unfold dispatch; js_unfold;
    rewrite bool_decide_eq_true_2 by set_solver;
    js_unfold; rewrite Hres; js_unfold; rewrite Hurl; js_unfold;
    repeat split; now rewrite lookup_insert_eq.
Qed.

End StartStop.

Lemma startStatusSync_one_of_each_witness :
  let w' := run (startStatusSync Sample.no_url_refused "t1") Sample.tracking in
  (owned Sample.tracking /\ Sample.no_url_refused "t1" = false) /\
  wsConnection (store w') = Some 4%positive /\
  (forall ws, socket_live w' ws = true <-> ws = 4%positive).
Proof.
  intros w'.
  pose proof (startStatusSync_one_of_each Sample.no_url_refused "t1"
                Sample.tracking tracking_owned eq_refl) as P.
  split; [split; [exact tracking_owned|reflexivity]|].
  split; apply P.
Defined.

Lemma stopStatusSync_then_reconnect_witness :
  let w' := dispatch_all Sample.no_url_refused
              [called call_stopStatusSync; ws_closed 2%positive;
               timeout_fired 4%positive] Sample.tracking in
  (isResearching (store Sample.tracking) = true /\
   socket_live Sample.tracking 2%positive = true) /\
  wsConnection (store w') = Some 5%positive /\
  socket_live w' 5%positive = true /\
  pollingTimer (store w') = None.
Proof.
  intros w'.
  pose proof (stopStatusSync_then_reconnect Sample.no_url_refused
                Sample.tracking (Sample.task "running" 5) 2%positive
                eq_refl eq_refl eq_refl ltac:(vm_compute; lia)
                eq_refl eq_refl) as P.
  split; [split; reflexivity|].
  repeat split; apply P.
Defined.

(** ** Mounting the report page *)

Ltac page_unfold :=
  cbv beta iota zeta delta
    [onMounted_fetched onMounted_rest onMounted_result watch_status
     watch_result fetchTaskResult_resume with_report_data page_world
     isLoadingResult toasts watched results_requested result_report];
  js_unfold.

Ltac page_steps Hr :=
  js_unfold;
  repeat (first
            [progress change (is_str (JsStr "completed") "completed") with true
            |rewrite Hr];
          js_unfold).

Lemma is_str_eq (v : JsValue) (s : string) :
  is_str v s = true -> v = JsStr s.
Proof.
  destruct v; try discriminate. simpl. intros H.
  apply String.eqb_eq in H. now subst.
Qed.

Section PageFacts.

Variable url_refused : string -> bool.

(** X26: what the page does once the status has been fetched.  The
    snapshot becomes the fetched task.  The watcher runs first: when
    the status differs from the one it saw last it logs the change,
    shows the failure message for [failed], and for [completed] raises
    the loading flag and requests the result.  Then the hook resumes:
    if the task is pending or running it starts synchronisation for the
    id the page was given (retry count 0, a new socket and a new
    interval held), and in every other case no channel is touched; for
    [completed] it raises the loading flag and requests the result
    itself, and awaits it. *)
Theorem onMounted_starts_sync_only_when_researching
    (taskId : string) (task : ResearchTask.t) (p : ReportPage) :
  url_refused taskId = false ->
  let w := page_world p in
  let status := ResearchTask.status task in
  let changed := negb (same_value status (watched p)) in
  let logged :=
    if changed
    then [console_log ("状态变化: " +:+ to_text (watched p) +:+ " -> "
                         +:+ to_text status) None]
    else [] in
  let out := onMounted_fetched url_refused taskId (inr task) p in
  let w' := page_world (snd out) in
  snapshot w' = (Some task, frame_record (poll_frame task)) /\
  fst out = is_str status "completed" /\
  toasts (snd out)
  = (if changed && is_str status "failed"
     then toast_error "研究失败" :: toasts p
     else toasts p) /\
  isLoadingResult (snd out)
  = (if is_str status "completed" then true else isLoadingResult p) /\
  results_requested (snd out)
  = (results_requested p
     + (if is_str status "completed"
        then if changed then 2 else 1
        else 0))%nat /\
  watched (snd out) = (if changed then status else watched p) /\
  (if researching (Some task)
   then wsRetryCount (store w') = 0%nat /\
        wsConnection (store w') = Some (next_handle (browser w)) /\
        sockets (browser w') !! next_handle (browser w)
        = Some (mkWebSocket taskId CONNECTING) /\
        pollingTimer (store w') = Some (Pos.succ (next_handle (browser w))) /\
        intervals (browser w') !! Pos.succ (next_handle (browser w))
        = Some taskId
   else store w' = mkStore (Some task) (frame_record (poll_frame task))
                     (wsConnection (store w)) (pollingTimer (store w))
                     (wsRetryCount (store w)) (error (store w)) /\
        browser w'
        = mkBrowser (sockets (browser w)) (intervals (browser w))
            (timeouts (browser w)) (requests (browser w))
            (logged ++ effects (browser w))%list (next_handle (browser w))).
Proof.
  intros Hurl. destruct p as [w flag shown seen asked]. destruct_state w.
  destruct task as [tid company status depth focus prog agent label eta
                    created started completed report failure].
  cbv zeta. cbn [ResearchTask.status watched page_world].
  destruct (is_str status "completed") eqn:Hc;
    [apply is_str_eq in Hc; subst status
    |destruct (is_str status "failed") eqn:Hf;
     [apply is_str_eq in Hf; subst status|]].
  - destruct (same_value (JsStr "completed") seen) eqn:Hs;
      page_unfold; rewrite Hs; js_unfold; simpl;
      rewrite ?Nat.add_1_r, ?Nat.add_succ_r, ?Nat.add_0_r; repeat split.
  - destruct (same_value (JsStr "failed") seen) eqn:Hs;
      page_unfold; rewrite Hs; js_unfold; simpl;
      rewrite ?Nat.add_0_r; repeat split.
  - destruct (same_value status seen) eqn:Hs;
      destruct (researching (Some
                  (ResearchTask.mk tid company status depth focus prog agent
                     label eta created started completed report failure)))
        eqn:Hr;
      page_unfold; rewrite Hs; js_unfold; rewrite ?Hc, ?Hf; js_unfold;
      unfold researching in *; js_unfold_in Hr; js_unfold;
      rewrite Hr; js_unfold; rewrite ?Hurl; js_eval;
      rewrite ?Hc, ?andb_false_r, ?Nat.add_0_r; cbn [negb andb app];
      repeat split; now rewrite ?lookup_insert_eq.
Qed.

(** X27: when the status request fails while the page is mounted, the
    store records the message in [error], the page shows its error
    message, nothing is awaited, and neither the snapshot nor any
    channel is touched. *)
Theorem onMounted_fetch_failure (taskId : string) (e : JsError) (p : ReportPage) :
  let out := onMounted_fetched url_refused taskId (inl e) p in
  let w := page_world p in
  let w' := page_world (snd out) in
  fst out = false /\
  toasts (snd out) = toast_error "获取任务信息失败" :: toasts p /\
  isLoadingResult (snd out) = isLoadingResult p /\
  error (store w') = Some (message e) /\
  snapshot w' = snapshot w /\
  wsConnection (store w') = wsConnection (store w) /\
  pollingTimer (store w') = pollingTimer (store w) /\
  browser w' = browser w.
Proof.
  destruct p as [w flag shown seen asked]. destruct_state w.
  page_unfold. repeat split.
Qed.

(** X28: the loading flag of the page when the fetched status is
    [completed].  If the watcher saw the status change, it and the hook
    each request the result, and whatever the two requests answer and
    in whichever order they settle, the flag ends lowered; the watcher
    shows its success or failure message and the hook its error message
    when its own request fails.  If the status is the one the watcher
    saw last (the store still showed the completed task), only the hook
    requests the result: the flag is raised, it is lowered without a
    message when the result arrives, and when the request fails the
    hook ends with the flag still raised, its error message shown and
    the failure recorded in [error]. *)
Theorem onMounted_result_flag
    (taskId : string) (task : ResearchTask.t)
    (for_watcher for_hook : JsError + TaskResult) (p : ReportPage) :
  is_str (ResearchTask.status task) "completed" = true ->
  let fetched := snd (onMounted_fetched url_refused taskId (inr task) p) in
  let watcher_first :=
    onMounted_result taskId for_hook (watch_result taskId for_watcher fetched) in
  let hook_first :=
    watch_result taskId for_watcher (onMounted_result taskId for_hook fetched) in
  let of_watcher :=
    match for_watcher with
    | inr _ => toast_success "研究完成！"
    | inl _ => toast_error "获取研究结果失败"
    end in
  let of_hook :=
    match for_hook with
    | inr _ => []
    | inl _ => [toast_error "获取任务信息失败"]
    end in
  let hook_alone := onMounted_result taskId for_hook fetched in
  isLoadingResult fetched = true /\
  (same_value (ResearchTask.status task) (watched p) = false ->
   results_requested fetched = (results_requested p + 2)%nat /\
   isLoadingResult watcher_first = false /\
   isLoadingResult hook_first = false /\
   toasts watcher_first = (of_hook ++ of_watcher :: toasts p)%list /\
   toasts hook_first = (of_watcher :: of_hook ++ toasts p)%list) /\
  (same_value (ResearchTask.status task) (watched p) = true ->
   results_requested fetched = (results_requested p + 1)%nat /\
   match for_hook with
   | inr _ =>
       isLoadingResult hook_alone = false /\ toasts hook_alone = toasts p
   | inl e =>
       isLoadingResult hook_alone = true /\
       toasts hook_alone = toast_error "获取任务信息失败" :: toasts p /\
       error (store (page_world hook_alone)) = Some (message e)
   end).
Proof.
  intros Hc. destruct p as [w flag shown seen asked]. destruct_state w.
  destruct task as [tid company status depth focus prog agent label eta
                    created started completed report failure].
  cbn [ResearchTask.status watched] in *.
  apply is_str_eq in Hc. subst status.
  assert (Hr : researching
                 (Some (ResearchTask.mk tid company (JsStr "completed") depth
                          focus prog agent label eta created started completed
                          report failure)) = false) by reflexivity.
  destruct (same_value (JsStr "completed") seen) eqn:Hs.
  - split; [|split; [discriminate|intros _]].
    + page_unfold. rewrite Hs. page_steps Hr. reflexivity.
    + destruct for_hook, (String.eqb tid taskId) eqn:Hid;
        page_unfold; rewrite Hs; page_steps Hr; rewrite ?Hid; js_unfold;
        rewrite ?Nat.add_1_r; repeat split.
  - split; [|split; [intros _|discriminate]].
    + page_unfold. rewrite Hs. page_steps Hr. reflexivity.
    + destruct for_watcher, for_hook, (String.eqb tid taskId) eqn:Hid;
        page_unfold; rewrite Hs; page_steps Hr; rewrite ?Hid; js_unfold;
        rewrite ?Hid; js_unfold;
        rewrite ?Nat.add_succ_r, ?Nat.add_0_r; repeat split.
Qed.

End PageFacts.

Lemma onMounted_starts_sync_only_when_researching_witness :
  let out := onMounted_fetched Sample.no_url_refused "t1"
               (inr (Sample.task "failed" 40)) Sample2.page in
  Sample.no_url_refused "t1" = false /\
  fst out = false /\
  toasts (snd out) = [toast_error "研究失败"] /\
  sockets (browser (page_world (snd out))) = sockets (browser initial_world).
Proof.
  intros out.
  pose proof (onMounted_starts_sync_only_when_researching
                Sample.no_url_refused "t1" (Sample.task "failed" 40)
                Sample2.page eq_refl) as (_ & Hf & Ht & _ & _ & _ & Hw).
  split; [reflexivity|]. split; [exact Hf|]. split; [exact Ht|].
  exact (f_equal sockets (proj2 Hw)).
Defined.

Lemma onMounted_result_flag_witness :
  let fetched := snd (onMounted_fetched Sample.no_url_refused "t1"
                        (inr (Sample.task "completed" 100))
                        Sample2.page_revisited) in
  is_str (ResearchTask.status (Sample.task "completed" 100)) "completed" = true /\
  same_value (ResearchTask.status (Sample.task "completed" 100))
    (watched Sample2.page_revisited) = true /\
  isLoadingResult fetched = true /\
  isLoadingResult
    (onMounted_result "t1" (inl (NetworkError "offline")) fetched) = true.
Proof.
  intros fetched.
  pose proof (onMounted_result_flag Sample.no_url_refused "t1"
                (Sample.task "completed" 100) (inr Sample2.result)
                (inl (NetworkError "offline")) Sample2.page_revisited eq_refl)
    as (Hraised & _ & Halone).
  split; [reflexivity|]. split; [reflexivity|]. split; [exact Hraised|].
  apply (Halone eq_refl).
Defined.
